(** * Purser: the validators of [src/trezor/validators.js] and the library
    facade, embedded in Rocq.

    The validators take a value of any JavaScript type, build an ordered list
    of (expression, message) rules and hand it to the sequence runner, which
    throws the message of the first rule whose expression is false.  A
    JavaScript array literal evaluates every element before the runner is
    called, so the expressions of all rules are evaluated, in order, whatever
    the earlier ones gave: the embedding keeps that order and lets each
    expression throw. *)

From Stdlib Require Import ZArith String Ascii Bool List Lia.
From Stdlib Require Import Floats.SpecFloat.
From stdpp Require Import base option list strings gmap.

Local Open Scope string_scope.
Local Open Scope Z_scope.

(** ** JavaScript numbers: IEEE 754 binary64 *)

Module Num.

(** A Number is a binary64 value: zero and infinity with a sign, NaN, or
    [(-1)^s * m * 2^e]. *)
Definition number : Type := spec_float.

Definition prec : Z := 53.
Definition emax : Z := 1024.

Definition NaN : number := S754_nan.
Definition zero : number := S754_zero false.

(** The Number nearest to an integer (round to nearest, ties to even): the
    value of an integer literal and of [parseInt]'s result. *)
Definition of_Z (z : Z) : number := binary_normalize prec emax z 0 false.

(** [x === y] on Numbers: NaN differs from everything, [+0 === -0]. *)
Definition strict_eq (x y : number) : bool := SFeqb x y.

(** [x >= y] on Numbers: false as soon as one side is NaN. *)
Definition ge (x y : number) : bool :=
  match SFcompare x y with
  | Some Gt | Some Eq => true
  | Some Lt | None => false
  end.

(** The mathematical value of a Number when it is finite and integral
    (IsIntegralNumber), nothing otherwise. *)
Definition integer_value (x : number) : option Z :=
  match x with
  | S754_zero _ => Some 0
  | S754_infinity _ | S754_nan => None
  | S754_finite s m e =>
      match e with
      | Zneg p =>
          if Z.pos m mod 2 ^ Z.pos p =? 0
          then Some (cond_Zopp s (Z.pos m / 2 ^ Z.pos p))
          else None
      | _ => Some (cond_Zopp s (Z.pos m * 2 ^ e))
      end
  end.

Definition MAX_SAFE_INTEGER : Z := 2 ^ 53 - 1.

(** [Number.isSafeInteger] on a Number. *)
Definition isSafeInteger (x : number) : bool :=
  match integer_value x with
  | Some z => Z.abs z <=? MAX_SAFE_INTEGER
  | None => false
  end.

(** Falsy Numbers: the zeros and NaN. *)
Definition truthy (x : number) : bool :=
  match x with
  | S754_zero _ | S754_nan => false
  | _ => true
  end.

End Num.

(** ** JavaScript strings

    A [string] is the sequence of UTF-16 code units of the JavaScript string;
    an [ascii] is a code unit below 256. *)

Module Str.

Definition is_digit (c : ascii) : bool :=
  let n := N_of_ascii c in ((48 <=? n) && (n <=? 57))%N.

Definition is_hex_digit (c : ascii) : bool :=
  let n := N_of_ascii c in
  (((48 <=? n) && (n <=? 57)) || ((97 <=? n) && (n <=? 102))
   || ((65 <=? n) && (n <=? 70)))%N.

(** WhiteSpace and LineTerminator code units below 256: TAB, LF, VT, FF,
    CR, SP and NBSP. *)
Definition is_white_space (c : ascii) : bool :=
  let n := N_of_ascii c in
  (((9 <=? n) && (n <=? 13)) || (n =? 32) || (n =? 160))%N.

Fixpoint forallb (p : ascii -> bool) (s : string) : bool :=
  match s with
  | EmptyString => true
  | String c s' => p c && forallb p s'
  end.

(** Code units with a lower-case mapping, below 256: A-Z, and the Latin-1
    capitals U+00C0..U+00DE except the multiplication sign U+00D7. *)
Definition lower_char (c : ascii) : ascii :=
  let n := N_of_ascii c in
  if (((65 <=? n) && (n <=? 90))
      || ((192 <=? n) && (n <=? 222) && negb (n =? 215)))%N
  then ascii_of_N (n + 32) else c.

Fixpoint toLowerCase (s : string) : string :=
  match s with
  | EmptyString => EmptyString
  | String c s' => String (lower_char c) (toLowerCase s')
  end.

(** Does [s] start with [sep]? *)
Fixpoint starts_with (sep s : string) : bool :=
  match sep with
  | EmptyString => true
  | String a sep' =>
      match s with
      | EmptyString => false
      | String b s' => Ascii.eqb a b && starts_with sep' s'
      end
  end.

(** The pieces of [s] around the occurrences of a non-empty separator,
    scanned from the left: the piece that starts at the head of [s] and the
    pieces after it.  [skip] counts the code units of a separator just
    matched that are still to be passed over. *)
Fixpoint split_pieces (sep : string) (skip : nat) (s : string)
  : string * list string :=
  match s with
  | EmptyString => (EmptyString, [])
  | String c s' =>
      match skip with
      | S k => split_pieces sep k s'
      | O =>
          if starts_with sep s
          then (EmptyString,
                let '(p, ps) := split_pieces sep (String.length sep - 1) s'
                in p :: ps)
          else let '(p, ps) := split_pieces sep O s' in (String c p, ps)
      end
  end.

Fixpoint code_units (s : string) : list string :=
  match s with
  | EmptyString => []
  | String c s' => String c EmptyString :: code_units s'
  end.

(** [s.split(sep)] for a string separator; the empty separator cuts between
    all code units (and gives the empty array on the empty string). *)
Definition split (s sep : string) : list string :=
  match sep with
  | EmptyString => code_units s
  | _ => let '(p, ps) := split_pieces sep O s in p :: ps
  end.

Fixpoint join (glue : string) (l : list string) : string :=
  match l with
  | [] => EmptyString
  | [x] => x
  | x :: l' => x +:+ glue +:+ join glue l'
  end.

Fixpoint drop_white_space (s : string) : string :=
  match s with
  | String c s' => if is_white_space c then drop_white_space s' else s
  | EmptyString => EmptyString
  end.

(** The value of the longest prefix of decimal digits, read after the
    digits [acc] already seen; [seen] tells whether a digit was seen. *)
Fixpoint digits_prefix (seen : bool) (acc : Z) (s : string) : option Z :=
  match s with
  | String c s' =>
      if is_digit c
      then digits_prefix true (10 * acc + (Z.of_N (N_of_ascii c) - 48)) s'
      else if seen then Some acc else None
  | EmptyString => if seen then Some acc else None
  end.

(** [parseInt(s, 10)]: leading white space is dropped, one sign is read,
    then the longest run of decimal digits; no digit gives NaN.  With the
    radix given as 10 no [0x] prefix is recognised. *)
Definition parseInt (s : string) : Num.number :=
  let t := drop_white_space s in
  let '(neg, u) :=
    match t with
    | String "-" u => (true, u)
    | String "+" u => (false, u)
    | _ => (false, t)
    end in
  match digits_prefix false 0 u with
  | Some z => let n := Num.of_Z z in if neg then SFopp n else n
  | None => Num.NaN
  end.

End Str.

(** ** JavaScript values, exceptions and the built-ins the validators call *)

(** The values a validator is run on: [undefined], [null], booleans, Numbers
    and strings.  Symbols, BigInts and objects, whose property lookup is
    open-ended, are not part of the model. *)
Inductive value : Type :=
| VUndefined
| VNull
| VBoolean (b : bool)
| VNumber (n : Num.number)
| VString (s : string).

(** What a call can throw: the engine's [TypeError] (a method looked up on a
    value that has none; its text depends on the engine) or an [Error] made by
    the library, with its message. *)
Inductive exn : Type :=
| TypeError
| Error (message : string).

Inductive result (A : Type) : Type :=
| Return (a : A)
| Throw (e : exn).
Arguments Return {A} a.
Arguments Throw {A} e.

#[export] Instance result_ret : MRet result := fun A a => Return a.
#[export] Instance result_bind : MBind result := fun A B f c =>
  match c with
  | Return a => f a
  | Throw e => Throw e
  end.

(** [try { c } catch (caughtError) { h }] *)
Definition try_catch {A : Type} (c : result A) (h : exn -> result A)
  : result A :=
  match c with
  | Return a => Return a
  | Throw e => h e
  end.

(** An array literal [[e1, ..., en]]: the elements are evaluated from left to
    right, all of them, and the first throw leaves the literal. *)
Fixpoint array_literal {A : Type} (elements : list (result A))
  : result (list A) :=
  match elements with
  | [] => mret []
  | element :: elements' =>
      x ← element; xs ← array_literal elements'; mret (x :: xs)
  end.

(** Built-ins of the platform whose result the language standard leaves to
    the engine or that no validator's outcome depends on: the decimal text of
    a Number and the Number read from a string. *)
Record Platform : Type := {
  Number_toString : Num.number -> string;
  StringToNumber : string -> Num.number;
}.

Module Js.
Section Builtins.

Variable pf : Platform.

Definition typeof (v : value) : string :=
match v with
| VUndefined => "undefined"
| VNull => "object"
| VBoolean _ => "boolean"
| VNumber _ => "number"
| VString _ => "string"
end.

(** ToBoolean *)
Definition truthy (v : value) : bool :=
match v with
| VUndefined | VNull => false
| VBoolean b => b
| VNumber n => Num.truthy n
| VString s => negb (String.eqb s "")
end.

(** [v || w] *)
Definition or_else (v w : value) : value := if truthy v then v else w.

(** ToString, as applied by template literals and by [parseInt]. *)
Definition ToString (v : value) : string :=
match v with
| VUndefined => "undefined"
| VNull => "null"
| VBoolean true => "true"
| VBoolean false => "false"
| VNumber n => Number_toString pf n
| VString s => s
end.

(** ToNumber *)
Definition ToNumber (v : value) : Num.number :=
match v with
| VUndefined => Num.NaN
| VNull => Num.zero
| VBoolean true => Num.of_Z 1
| VBoolean false => Num.zero
| VNumber n => n
| VString s => StringToNumber pf s
end.

(** [v >= n] for a Number [n]. *)
Definition ge (v : value) (n : Num.number) : bool := Num.ge (ToNumber v) n.

(** [Number.isSafeInteger(v)]: false on everything that is not a Number. *)
Definition isSafeInteger (v : value) : bool :=
match v with
| VNumber n => Num.isSafeInteger n
| _ => false
end.

(** [parseInt(v, 10)] *)
Definition parseInt (v : value) : Num.number := Str.parseInt (ToString v).

(** [a[i]]: the element, or [undefined] past the end. *)
Definition index (a : list string) (i : nat) : value :=
match a !! i with
| Some s => VString s
| None => VUndefined
end.

(** [v.split(sep)]: only strings have the method. *)
Definition split (v : value) (sep : string) : result (list string) :=
match v with
| VString s => Return (Str.split s sep)
| _ => Throw TypeError
end.

(** [v.toLowerCase()] *)
Definition toLowerCase (v : value) : result string :=
match v with
| VString s => Return (Str.toLowerCase s)
| _ => Throw TypeError
end.

(** [!!v.match(re)], the pattern given by the strings it matches. *)
Definition matches (v : value) (re : string -> bool) : result bool :=
match v with
| VString s => Return (re s)
| _ => Throw TypeError
end.

(** [v.length]: the number of code units of a string (an exact integer, so
it is kept as one), [undefined] on booleans and Numbers; reading a
property of [undefined] or [null] throws. *)
Definition length (v : value) : result (option Z) :=
match v with
| VString s => Return (Some (Z.of_nat (String.length s)))
| VBoolean _ | VNumber _ => Return None
| VUndefined | VNull => Throw TypeError
end.

(** [len === n] and [len <= n] for a length that may be [undefined]. *)
Definition length_is (len : option Z) (n : Z) : bool :=
match len with
| Some l => l =? n
| None => false
end.

Definition length_le (len : option Z) (n : Z) : bool :=
match len with
| Some l => l <=? n
| None => false
end.

End Builtins.
End Js.

(** ** Constants and helpers imported by [validators.js] *)

(** The constants of [./defaults] that the validators read ([PATH], [MATCH],
    [UNDEFINED], [SPLITTER]); the module is not among the sources, so they are
    parameters.  A pattern of [MATCH] is given by the strings it matches. *)
Record Defaults : Type := {
  PATH_DELIMITER : string;
  PATH_HEADER_KEY : string;
  PATH_PURPOSE : Num.number;
  PATH_COIN_MAINNET : Num.number;
  PATH_COIN_TESTNET : Num.number;
  SPLITTER : string;
  UNDEFINED : string;
  MATCH_DIGITS : string -> bool;
  MATCH_ADDRESS : string -> bool;
  MATCH_HEX_STRING : string -> bool;
}.

(** The message texts of [./messages] ([validators.derivationPath],
    [.safeInteger], [.address], [.hexSequence], [.message]); the module is not
    among the sources, so the texts are parameters. *)
Record Messages : Type := {
  derivationPath_notString : string;
  derivationPath_notValidParts : string;
  derivationPath_notValidHeaderKey : string;
  derivationPath_notValidPurpouse : string;
  derivationPath_notValidCoin : string;
  derivationPath_notValidAccount : string;
  derivationPath_notValidChangeIndex : string;
  derivationPath_notValidAccountIndex : string;
  derivationPath_genericError : string;
  safeInteger_notNumber : string;
  safeInteger_notPositive : string;
  safeInteger_notSafe : string;
  safeInteger_genericError : string;
  address_notStringSequence : string;
  address_notLength : string;
  address_notFormat : string;
  address_genericError : string;
  hexSequence_notStringSequence : string;
  hexSequence_notFormat : string;
  hexSequence_tooBig : string;
  hexSequence_genericError : string;
  message_notString : string;
  message_tooBig : string;
  message_genericError : string;
}.

(** What [../utils] contributes besides the sequence runner: the serializer
    used in the not-a-string messages, and the text put between the fragments
    of a message given as a list.  The module is not among the sources. *)
Record Utils : Type := {
  objectToErrorString : value -> string;
  fragment_glue : string;
}.

(** A rule's message: one string, or an ordered list of fragments. *)
Inductive message : Type :=
| Text (s : string)
| Fragments (l : list string).

Record rule : Type := Rule {
  expression : bool;
  rule_message : message;
}.

Section Runner.

Variable ut : Utils.

Definition render (m : message) : string :=
  match m with
  | Text s => s
  | Fragments l => Str.join (fragment_glue ut) l
  end.

(** Modelled from the spec: [assertTruth] of [../utils], which is not among
    the sources.  It returns true when the rule's expression holds and
    otherwise fails with the rule's message, "list fragments, if present,
    joined into one string". *)
Definition assertTruth (r : rule) : result bool :=
  if expression r then Return true
  else Throw (Error (render (rule_message r))).

Fixpoint run_sequence (rules : list rule) : result bool :=
  match rules with
  | [] => Return true
  | r :: rules' => _ ← assertTruth r; run_sequence rules'
  end.

(** Modelled from the spec: [validatorGenerator] of [../utils], which is not
    among the sources.  "Evaluate each rule's expression in order.  On the
    first rule whose expression is false, fail immediately with that rule's
    specific message.  If all rules pass, return true.  If the rule list
    itself is empty or malformed, fail with the generic fallback
    message." *)
Definition validatorGenerator (rules : list rule) (genericError : string)
  : result bool :=
  match rules with
  | [] => Throw (Error genericError)
  | _ => run_sequence rules
  end.

End Runner.

(** ** The validators of [src/trezor/validators.js] *)

Section Validators.

Variable pf : Platform.
Variable df : Defaults.
Variable ms : Messages.
Variable ut : Utils.

(** [`${label}: ${v}`] *)
Definition labelled (label : string) (v : value) : string :=
  label +:+ ": " +:+ Js.ToString pf v.

(** [v || UNDEFINED] *)
Definition or_UNDEFINED (v : value) : value :=
  Js.or_else v (VString (UNDEFINED df)).

(** The two fragments [`${label}:`] and [segment || UNDEFINED]. *)
Definition segment_message (label : string) (segment : value) : message :=
  Fragments [label +:+ ":"; Js.ToString pf (or_UNDEFINED segment)].

Definition derivationPathValidator (derivationPath : value) : result bool :=
  '(deSerializedDerivationPath, coinType) ←
    try_catch
      (deSerializedDerivationPath ←
         Js.split derivationPath (PATH_DELIMITER df);
       mret (deSerializedDerivationPath,
             Js.parseInt pf (Js.index deSerializedDerivationPath 1)))
      (fun caughtError =>
         Throw (Error (labelled (derivationPath_notString ms)
                         (or_UNDEFINED derivationPath))));
  _ ← assertTruth ut
        (Rule (Nat.eqb (List.length deSerializedDerivationPath) 4)
           (Fragments
              ([derivationPath_notValidParts ms +:+ ": ["]
               ++ deSerializedDerivationPath ++ ["]"])));
  let segment := Js.index deSerializedDerivationPath in
  validationSequence ← array_literal [
    (headerParts ← Js.split (segment 0%nat) (SPLITTER df);
     headerKey ← Js.toLowerCase (Js.index headerParts 0);
     mret (Rule (String.eqb headerKey (PATH_HEADER_KEY df))
             (segment_message (derivationPath_notValidHeaderKey ms)
                (segment 0%nat))));
    (purposeParts ← Js.split (segment 0%nat) (SPLITTER df);
     mret (Rule (Num.strict_eq (Js.parseInt pf (Js.index purposeParts 1))
                   (PATH_PURPOSE df))
             (segment_message (derivationPath_notValidPurpouse ms)
                (segment 0%nat))));
    mret (Rule (Num.strict_eq coinType (PATH_COIN_MAINNET df)
                || Num.strict_eq coinType (PATH_COIN_TESTNET df))
            (segment_message (derivationPath_notValidCoin ms)
               (segment 1%nat)));
    (account ← Js.matches (segment 2%nat) (MATCH_DIGITS df);
     mret (Rule account
             (segment_message (derivationPath_notValidAccount ms)
                (segment 2%nat))));
    (changeIndexParts ← Js.split (segment 3%nat) (SPLITTER df);
     changeIndexDigits ←
       mapM (fun value => Js.matches (VString value) (MATCH_DIGITS df))
         changeIndexParts;
     mret (Rule (forallb (fun truth => negb (Bool.eqb truth false))
                   changeIndexDigits)
             (segment_message (derivationPath_notValidChangeIndex ms)
                (segment 3%nat))));
    (accountIndexParts ← Js.split (segment 3%nat) (SPLITTER df);
     mret (Rule (Nat.leb (List.length accountIndexParts) 2)
             (segment_message (derivationPath_notValidAccountIndex ms)
                (segment 3%nat))))
  ];
  validatorGenerator ut validationSequence
    (labelled (derivationPath_genericError ms)
       (or_UNDEFINED derivationPath)).

Definition safeIntegerValidator (integer : value) : result bool :=
  validationSequence ← array_literal [
    mret (Rule (String.eqb (Js.typeof integer) "number")
            (Text (labelled (safeInteger_notNumber ms) integer)));
    mret (Rule (Js.ge pf integer Num.zero)
            (Text (labelled (safeInteger_notPositive ms) integer)));
    mret (Rule (Js.isSafeInteger integer)
            (Text (labelled (safeInteger_notSafe ms) integer)))
  ];
  validatorGenerator ut validationSequence
    (labelled (safeInteger_genericError ms) integer).

(** [objectToErrorString(v) || UNDEFINED] *)
Definition serialized (v : value) : value :=
  or_UNDEFINED (VString (objectToErrorString ut v)).

Definition addressValidator (address : value) : result bool :=
  validationSequence ← array_literal [
    mret (Rule (String.eqb (Js.typeof address) "string")
            (Text (labelled (address_notStringSequence ms)
                     (serialized address))));
    (len ← Js.length address;
     mret (Rule (Js.length_is len 40 || Js.length_is len 42)
             (Text (labelled (address_notLength ms)
                      (or_UNDEFINED address)))));
    (format ← Js.matches address (MATCH_ADDRESS df);
     mret (Rule format
             (Text (labelled (address_notFormat ms)
                      (or_UNDEFINED address)))))
  ];
  validatorGenerator ut validationSequence
    (labelled (address_genericError ms) (or_UNDEFINED address)).

Definition hexSequenceValidator (hexSequence : value) : result bool :=
  validationSequence ← array_literal [
    mret (Rule (String.eqb (Js.typeof hexSequence) "string")
            (Text (labelled (hexSequence_notStringSequence ms)
                     (serialized hexSequence))));
    (format ← Js.matches hexSequence (MATCH_HEX_STRING df);
     mret (Rule format
             (Text (labelled (hexSequence_notFormat ms)
                      (or_UNDEFINED hexSequence)))));
    (len ← Js.length hexSequence;
     mret (Rule (Js.length_le len 1024)
             (Text (labelled (hexSequence_tooBig ms)
                      (or_UNDEFINED hexSequence)))))
  ];
  validatorGenerator ut validationSequence
    (labelled (hexSequence_genericError ms) (or_UNDEFINED hexSequence)).

Definition messageValidator (string : value) : result bool :=
  validationSequence ← array_literal [
    mret (Rule (String.eqb (Js.typeof string) "string")
            (Text (labelled (message_notString ms) (serialized string))));
    (len ← Js.length string;
     mret (Rule (Js.length_le len 1024)
             (Text (labelled (message_tooBig ms) (or_UNDEFINED string)))))
  ];
  validatorGenerator ut validationSequence
    (labelled (message_genericError ms) (or_UNDEFINED string)).

End Validators.

(** ** The library facade *)

Module Facade.

(** What a property of the exported object holds: a binding imported from
    another module (named, otherwise opaque), a string, or an object
    literal. *)
#[warnings="-register-all"]
Inductive export : Type :=
| Imported (name : string)
| StringValue (s : string)
| Object (properties : gmap string export).

(** [Object.assign(target, ...sources)]: the own properties of each
    source, in turn, are written over the target's. *)
Definition Object_assign (target : gmap string export)
           (sources : list (gmap string export)) : gmap string export :=
  foldl (fun assigned source => source ∪ assigned) target sources.

Section Exports.

(** [ENV] of [./defaults], the own enumerable properties of the default
    export of [./debug], and [name] and [version] of [package.json]: none
    is among the sources. *)
Variable ENV : string.
Variable debug : gmap string export.
Variable name version : string.

(** The object literal with the wallets, the utilities and [about]. *)
Definition core : gmap string export :=
  {[ "wallets" := Object {[ "software" := Imported "software";
                            "trezor" := Imported "trezor";
                            "ledger" := Imported "ledger" ]};
     "utils" := Object {[ "bigNumber" := Imported "bigNumber";
                          "getRandomValues" := Imported "getRandomValues" ]};
     "about" := Object {[ "name" := StringValue name;
                          "version" := StringValue version;
                          "environment" := StringValue ENV ]} ]}.

Definition colonyWallet : gmap string export :=
  Object_assign ∅
    [core; if String.eqb ENV "development" then debug else ∅].

End Exports.

End Facade.

(** ** The constants the specification gives *)

Module Match.

(** Modelled from the spec: [MATCH.DIGITS] of [./defaults], "a digits-only
    pattern": one or more decimal digits and nothing else. *)
Definition DIGITS (s : string) : bool :=
  negb (String.eqb s "") && Str.forallb Str.is_digit s.

(** What is left of [s] after a leading [0x], if it has one. *)
Definition after_0x (s : string) : option string :=
  match s with
  | String "0" (String "x" s') => Some s'
  | _ => None
  end.

(** An optional [0x], then a body that satisfies [body].  A body never
    starts with [0x] when it is made of hex digits, so trying the prefix
    first or last gives the same answer. *)
Definition optional_0x (body : string -> bool) (s : string) : bool :=
  body s || match after_0x s with Some s' => body s' | None => false end.

Definition hex_digits (s : string) : bool := Str.forallb Str.is_hex_digit s.

(** Modelled from the spec: [MATCH.ADDRESS] of [./defaults], the "hex
    string of length 40 with or with out the `0x` prefix" of the comment in
    [addressValidator]. *)
Definition ADDRESS (s : string) : bool :=
  optional_0x (fun b => hex_digits b && (String.length b =? 40)%nat) s.

(** Modelled from the spec: [MATCH.HEX_STRING] of [./defaults], the "hex
    string with or with out the `0x` prefix" of the comment in
    [hexSequenceValidator]. *)
Definition HEX_STRING (s : string) : bool := optional_0x hex_digits s.

End Match.

(** Modelled from the spec: the constants of [./defaults].  The header key is
    [m], the purpose 44, the coin types 60 (mainnet) and 1 (testnet), the
    splitter of the change/index segment is the slash.  The top-level
    delimiter is the apostrophe followed by the slash: the validator reads
    the header key and the purpose out of segment 0, cut at [SPLITTER], and
    the coin type out of segment 1, so the hardened-level mark and the slash
    together separate the four segments of [m/44'/60'/0'/0].  No other
    delimiter lets the validator accept that path ([delimiter_forced]), and
    with the slash alone it would accept nothing
    ([slash_delimiter_accepts_nothing]). *)
Definition purser_defaults : Defaults := {|
  PATH_DELIMITER := "'/";
  PATH_HEADER_KEY := "m";
  PATH_PURPOSE := Num.of_Z 44;
  PATH_COIN_MAINNET := Num.of_Z 60;
  PATH_COIN_TESTNET := Num.of_Z 1;
  SPLITTER := "/";
  UNDEFINED := "undefined";
  MATCH_DIGITS := Match.DIGITS;
  MATCH_ADDRESS := Match.ADDRESS;
  MATCH_HEX_STRING := Match.HEX_STRING;
|}.

(** Modelled from the spec: the texts of [./messages], each standing as the
    name the specification gives to its failure category. *)
Definition category_messages : Messages := {|
  derivationPath_notString := "not-a-string";
  derivationPath_notValidParts := "wrong-part-count";
  derivationPath_notValidHeaderKey := "bad-header";
  derivationPath_notValidPurpouse := "bad-purpose";
  derivationPath_notValidCoin := "bad-coin-type";
  derivationPath_notValidAccount := "bad-account-format";
  derivationPath_notValidChangeIndex := "bad-change-index-format";
  derivationPath_notValidAccountIndex := "too-many-indices";
  derivationPath_genericError := "invalid-derivation-path";
  safeInteger_notNumber := "not-a-number";
  safeInteger_notPositive := "not-positive";
  safeInteger_notSafe := "not-safe";
  safeInteger_genericError := "invalid-integer";
  address_notStringSequence := "not-a-string";
  address_notLength := "wrong-length";
  address_notFormat := "bad-pattern";
  address_genericError := "invalid-address";
  hexSequence_notStringSequence := "not-a-string";
  hexSequence_notFormat := "bad-pattern";
  hexSequence_tooBig := "too-large";
  hexSequence_genericError := "invalid-hex-sequence";
  message_notString := "not-a-string";
  message_tooBig := "too-large";
  message_genericError := "invalid-message";
|}.

Module Sample.

(** The decimal digits of a natural number, most significant first. *)
Fixpoint digits (fuel : nat) (n : N) (tail : string) : string :=
  match fuel with
  | O => tail
  | S fuel' =>
      let tail' := String (ascii_of_N (48 + n mod 10)) tail in
      if (n <? 10)%N then tail' else digits fuel' (n / 10) tail'
  end.

Definition decimal (z : Z) : string :=
  let n := Z.to_N (Z.abs z) in
  let text := digits (S (N.to_nat (N.log2 n))) n "" in
  if z <? 0 then String "-" text else text.

(** A platform to run the validators on: the decimal text of a Number is
    the standard's on NaN, the infinities, the zeros and the integral
    Numbers below 10^21 (the empty string stands for the other ones), and
    the Number of a string is the standard's on the empty string and on
    runs of decimal digits (NaN stands for the other ones). *)
Definition platform : Platform := {|
  Number_toString n :=
    match n with
    | S754_nan => "NaN"
    | S754_infinity false => "Infinity"
    | S754_infinity true => "-Infinity"
    | _ =>
        match Num.integer_value n with
        | Some z => if Z.abs z <? 10 ^ 21 then decimal z else ""
        | None => ""
        end
    end;
  StringToNumber s :=
    if String.eqb s "" then Num.zero
    else if Match.DIGITS s then Str.parseInt s else Num.NaN;
|}.

(** Helpers to run the validators with: the serializer prints a value as a
    template literal would, and fragments are joined with one space. *)
Definition utils : Utils := {|
  objectToErrorString v := Js.ToString platform v;
  fragment_glue := " ";
|}.

End Sample.

(** ** Definitions used to state the properties *)

(** [s.repeat(n)] *)
Fixpoint repeat (s : string) (n : nat) : string :=
  match n with
  | O => ""
  | S n' => s +:+ repeat s n'
  end.

(** [s] has no code unit equal to [c]. *)
Definition free_of (c : ascii) (s : string) : bool :=
  Str.forallb (fun x => negb (Ascii.eqb x c)) s.

(** The path [header/44'/coin'/account'/i1/.../in]. *)
Definition path_of (header coin account : string) (indices : list string)
  : string :=
  header +:+ "/44'/" +:+ coin +:+ "'/" +:+ account +:+ "'/"
  +:+ Str.join "/" indices.

(** The constants of [purser_defaults] with another top-level delimiter. *)
Definition with_delimiter (delimiter : string) : Defaults := {|
  PATH_DELIMITER := delimiter;
  PATH_HEADER_KEY := PATH_HEADER_KEY purser_defaults;
  PATH_PURPOSE := PATH_PURPOSE purser_defaults;
  PATH_COIN_MAINNET := PATH_COIN_MAINNET purser_defaults;
  PATH_COIN_TESTNET := PATH_COIN_TESTNET purser_defaults;
  SPLITTER := SPLITTER purser_defaults;
  UNDEFINED := UNDEFINED purser_defaults;
  MATCH_DIGITS := MATCH_DIGITS purser_defaults;
  MATCH_ADDRESS := MATCH_ADDRESS purser_defaults;
  MATCH_HEX_STRING := MATCH_HEX_STRING purser_defaults;
|}.

(** Does [sep] occur in [s]? *)
Fixpoint occurs (sep s : string) : bool :=
  Str.starts_with sep s
  || match s with
     | EmptyString => false
     | String _ s' => occurs sep s'
     end.

Fixpoint prefixes (s : string) : list string :=
  "" :: match s with
        | EmptyString => []
        | String c s' => map (String c) (prefixes s')
        end.

Fixpoint substrings (s : string) : list string :=
  prefixes s ++ match s with
                | EmptyString => []
                | String _ s' => substrings s'
                end.

Definition is_true (r : result bool) : bool :=
  match r with
  | Return true => true
  | _ => false
  end.

(** The message of the first rule whose expression is false, if there is
    one. *)
Fixpoint first_failure (rules : list rule) : option message :=
  match rules with
  | [] => None
  | r :: rules' =>
      if expression r then first_failure rules' else Some (rule_message r)
  end.

(** ** [bigNumberValidator] *)

(** What [bigNumberValidator] is run on: one of the values above, or an
    instance of the [BN] class of [bn.js], given by the integer it holds. *)
Inductive bigNumberInput : Type :=
| Primitive (v : value)
| BNInstance (n : Z).

(** The texts of [validators.bigNumber] in [./messages], and the text that
    [objectToErrorString] of [../utils] gives for a [BN] instance; neither
    module is among the sources. *)
Record BigNumberTexts : Type := {
  bigNumber_notBigNumber : string;
  bigNumber_genericError : string;
  BN_toErrorString : Z -> string;
}.

Section BigNumber.

Variable ut : Utils.
Variable bt : BigNumberTexts.

(** [BN.isBN(num)] of [bn.js]: [num instanceof BN], or an object shaped like
    an instance; never a primitive. *)
Definition isBN (num : bigNumberInput) : bool :=
  match num with
  | BNInstance _ => true
  | Primitive _ => false
  end.

(** [objectToErrorString(bigNumber)] *)
Definition bigNumberToErrorString (bigNumber : bigNumberInput) : string :=
  match bigNumber with
  | Primitive v => objectToErrorString ut v
  | BNInstance n => BN_toErrorString bt n
  end.

Definition bigNumberValidator (bigNumber : bigNumberInput) : result bool :=
  validationSequence ← array_literal [
    mret (Rule (isBN bigNumber)
            (Text (bigNumber_notBigNumber bt +:+ ": "
                   +:+ bigNumberToErrorString bigNumber)))
  ];
  validatorGenerator ut validationSequence
    (bigNumber_genericError bt +:+ ": "
     +:+ bigNumberToErrorString bigNumber).

End BigNumber.

(** * Properties *)

(** ** Sample runs *)

Example split_mainnet_path :
  Str.split "m/44'/60'/0'/0" "'/" = ["m/44"; "60"; "0"; "0"].
Proof. reflexivity. Qed.

Example split_scans_from_the_left : Str.split "aXXXb" "XX" = ["a"; "Xb"].
Proof. reflexivity. Qed.

Example split_empty_separator : Str.split "ab" "" = ["a"; "b"].
Proof. reflexivity. Qed.

Example split_empty_string : Str.split "" "/" = [""].
Proof. reflexivity. Qed.

Example parseInt_reads_leading_digits :
  Str.parseInt " -12abc" = Num.of_Z (-12).
Proof. reflexivity. Qed.

Example parseInt_undefined : Str.parseInt "undefined" = Num.NaN.
Proof. reflexivity. Qed.

Example of_Z_rounds_to_even :
  Num.of_Z 9007199254740993 = Num.of_Z 9007199254740992.
Proof. reflexivity. Qed.

Example header_other_than_m :
  derivationPathValidator Sample.platform purser_defaults category_messages
    Sample.utils (VString "x/44'/60'/0'/0")
  = Throw (Error "bad-header: x/44").
Proof. reflexivity. Qed.

Example coin_other_than_60_or_1 :
  derivationPathValidator Sample.platform purser_defaults category_messages
    Sample.utils (VString "m/44'/99'/0'/0")
  = Throw (Error "bad-coin-type: 99").
Proof. reflexivity. Qed.

Example index_not_a_number :
  derivationPathValidator Sample.platform purser_defaults category_messages
    Sample.utils (VString "m/44'/60'/0'/0/a")
  = Throw (Error "bad-change-index-format: 0/a").
Proof. reflexivity. Qed.

(** ** Numbers *)

Lemma ge_zero_spec (n : Num.number) :
  Num.ge n Num.zero =
  match n with
  | S754_zero _ => true
  | S754_infinity s | S754_finite s _ _ => negb s
  | S754_nan => false
  end.
Proof. destruct n as [s|s| |s m e]; try destruct s; reflexivity. Qed.

Lemma integer_value_finite_nonzero (s : bool) (m : positive) (e z : Z) :
  Num.integer_value (S754_finite s m e) = Some z ->
  if s then z < 0 else 0 < z.
Proof.
  unfold Num.integer_value.
  destruct e as [|p|p].
  - intros [= <-]. destruct s; simpl; lia.
  - intros [= <-].
    assert (0 < Z.pos m * 2 ^ Z.pos p) by (apply Z.mul_pos_pos; lia).
    destruct s; simpl; lia.
  - destruct (Z.eqb_spec (Z.pos m mod 2 ^ Z.pos p) 0) as [Hmod|]; [|discriminate].
    intros [= <-].
    assert (Hpow : 0 < 2 ^ Z.pos p) by lia.
    assert (Hq : 0 < Z.pos m / 2 ^ Z.pos p).
    { pose proof (Z.div_mod (Z.pos m) (2 ^ Z.pos p)) as Hdm.
      rewrite Hmod in Hdm.
      assert (0 <= Z.pos m / 2 ^ Z.pos p) by (apply Z.div_pos; lia).
      nia. }
    destruct s; simpl; lia.
Qed.

(** A Number passes the second and third rule of [safeIntegerValidator]
    exactly when it is an integer between 0 and 2^53 - 1. *)
Lemma nonnegative_safe_integer (n : Num.number) :
  Num.ge n Num.zero && Num.isSafeInteger n = true <->
  exists z, Num.integer_value n = Some z /\ 0 <= z <= 2 ^ 53 - 1.
Proof.
  rewrite ge_zero_spec. unfold Num.isSafeInteger, Num.MAX_SAFE_INTEGER.
  destruct n as [s|s| |s m e].
  - simpl. split; [intros _; exists 0; split; [reflexivity|lia]|reflexivity].
  - simpl. rewrite andb_false_r.
    split; [discriminate|intros (z & [=] & _)].
  - simpl. split; [discriminate|intros (z & [=] & _)].
  - destruct (Num.integer_value (S754_finite s m e)) as [z|] eqn:Hz.
    + apply integer_value_finite_nonzero in Hz.
      rewrite andb_true_iff, negb_true_iff, Z.leb_le.
      split.
      * intros [-> Hle]. exists z. split; [reflexivity|lia].
      * intros (z' & [= <-] & Hz'). destruct s; [lia|]. split; [reflexivity|lia].
    + rewrite andb_false_r. split; [discriminate|intros (z & [=] & _)].
Qed.

(** ** [safeIntegerValidator] *)

(** The three rules of [safeIntegerValidator], read in order. *)
Lemma safeIntegerValidator_unfold pf ms ut (integer : value) :
  safeIntegerValidator pf ms ut integer =
  match integer with
  | VNumber n =>
      if Num.ge n Num.zero then
        if Num.isSafeInteger n then Return true
        else Throw (Error (labelled pf (safeInteger_notSafe ms) integer))
      else Throw (Error (labelled pf (safeInteger_notPositive ms) integer))
  | _ => Throw (Error (labelled pf (safeInteger_notNumber ms) integer))
  end.
Proof.
  destruct integer as [| |b|n|s]; try reflexivity.
  unfold safeIntegerValidator, validatorGenerator, run_sequence, assertTruth.
  simpl. unfold Js.ge. simpl.
  destruct (Num.ge n Num.zero); simpl; [|reflexivity].
  destruct (Num.isSafeInteger n); reflexivity.
Qed.

(** C5: [safeIntegerValidator] returns true exactly on the Numbers that are
    integers between 0 and 2^53 - 1; its checks run in the order number
    primitive, non-negative, safe integer, and the first that fails gives the
    error.  2^53 - 1 is accepted, 2^53 fails as not safe, -1 as not positive
    and the string "5" as not a number. *)
Theorem safeIntegerValidator_accepts_exactly_safe_naturals pf ms ut :
  (forall integer,
      safeIntegerValidator pf ms ut integer = Return true <->
      exists n z, integer = VNumber n /\ Num.integer_value n = Some z
                  /\ 0 <= z <= 2 ^ 53 - 1)
  /\ (forall integer,
         safeIntegerValidator pf ms ut integer =
         if negb (String.eqb (Js.typeof integer) "number") then
           Throw (Error (labelled pf (safeInteger_notNumber ms) integer))
         else if negb (Js.ge pf integer Num.zero) then
           Throw (Error (labelled pf (safeInteger_notPositive ms) integer))
         else if negb (Js.isSafeInteger integer) then
           Throw (Error (labelled pf (safeInteger_notSafe ms) integer))
         else Return true)
  /\ safeIntegerValidator pf ms ut (VNumber (Num.of_Z 9007199254740991))
     = Return true
  /\ safeIntegerValidator pf ms ut (VNumber (Num.of_Z 9007199254740992))
     = Throw (Error (labelled pf (safeInteger_notSafe ms)
                       (VNumber (Num.of_Z 9007199254740992))))
  /\ safeIntegerValidator pf ms ut (VNumber (Num.of_Z (-1)))
     = Throw (Error (labelled pf (safeInteger_notPositive ms)
                       (VNumber (Num.of_Z (-1)))))
  /\ safeIntegerValidator pf ms ut (VString "5")
     = Throw (Error (safeInteger_notNumber ms +:+ ": 5")).
Proof.
  split; [|split; [|repeat split; reflexivity]].
  - intros integer. rewrite safeIntegerValidator_unfold.
    destruct integer as [| |b|n|s];
      try (split; [discriminate|intros (n' & z & [=] & _)]).
    pose proof (nonnegative_safe_integer n) as Hn.
    split.
    + intros Hrun.
      destruct (Num.ge n Num.zero); [|discriminate].
      destruct (Num.isSafeInteger n); [|discriminate].
      destruct Hn as [Hn _]. destruct (Hn eq_refl) as (z & Hz & Hrange).
      exists n, z. auto.
    + intros (n' & z & [= <-] & Hz & Hrange).
      destruct Hn as [_ Hn].
      destruct (andb_prop _ _ (Hn (ex_intro _ z (conj Hz Hrange)))) as [-> ->].
      reflexivity.
  - intros integer. rewrite safeIntegerValidator_unfold.
    destruct integer as [| |b|n|s]; try reflexivity.
    unfold Js.ge. simpl.
    destruct (Num.ge n Num.zero); simpl; [|reflexivity].
    destruct (Num.isSafeInteger n); reflexivity.
Qed.

(** C10: NaN is a Number, so the first rule passes; [NaN >= 0] is false, so
    [safeIntegerValidator] fails with the not-positive message, before the
    safe-integer rule is looked at. *)
Theorem safeIntegerValidator_NaN_not_positive pf ms ut :
  Js.typeof (VNumber Num.NaN) = "number"
  /\ Js.ge pf (VNumber Num.NaN) Num.zero = false
  /\ safeIntegerValidator pf ms ut (VNumber Num.NaN)
     = Throw (Error (safeInteger_notPositive ms +:+ ": "
                     +:+ Number_toString pf Num.NaN)).
Proof. repeat split; reflexivity. Qed.

(** ** The string validators *)

(** The tests on a string's length, brought back to [nat]. *)
Lemma Z_of_nat_eqb (n k : nat) : (Z.of_nat n =? Z.of_nat k) = (n =? k)%nat.
Proof.
  destruct (Nat.eqb_spec n k); destruct (Z.eqb_spec (Z.of_nat n) (Z.of_nat k));
    lia.
Qed.

Lemma Z_of_nat_leb (n k : nat) : (Z.of_nat n <=? Z.of_nat k) = (n <=? k)%nat.
Proof.
  destruct (Nat.leb_spec n k); destruct (Z.leb_spec (Z.of_nat n) (Z.of_nat k));
    lia.
Qed.

Ltac length_tests :=
  change 40 with (Z.of_nat 40); change 42 with (Z.of_nat 42);
  change 1024 with (Z.of_nat 1024);
  rewrite ?Z_of_nat_eqb, ?Z_of_nat_leb.

(** [`${label}: ${s || UNDEFINED}`] for a string [s]. *)
Lemma labelled_or_UNDEFINED pf df (label s : string) :
  labelled pf label (or_UNDEFINED df (VString s)) =
  label +:+ ": " +:+ (if String.eqb s "" then UNDEFINED df else s).
Proof.
  unfold labelled, or_UNDEFINED, Js.or_else. simpl.
  destruct (String.eqb s ""); reflexivity.
Qed.

Lemma labelled_nonempty pf df (label s : string) :
  s <> "" ->
  labelled pf label (or_UNDEFINED df (VString s)) = label +:+ ": " +:+ s.
Proof.
  intros Hs. rewrite labelled_or_UNDEFINED.
  destruct (String.eqb_spec s ""); [contradiction|reflexivity].
Qed.

(** On a string, [addressValidator] checks the length, then the pattern. *)
Lemma addressValidator_string pf df ms ut (s : string) :
  addressValidator pf df ms ut (VString s) =
  if negb ((String.length s =? 40)%nat || (String.length s =? 42)%nat) then
    Throw (Error (labelled pf (address_notLength ms)
                    (or_UNDEFINED df (VString s))))
  else if negb (MATCH_ADDRESS df s) then
    Throw (Error (labelled pf (address_notFormat ms)
                    (or_UNDEFINED df (VString s))))
  else Return true.
Proof.
  unfold addressValidator, validatorGenerator, run_sequence, assertTruth.
  simpl.
  length_tests.
  destruct (_ || _); simpl; [|reflexivity].
  destruct (MATCH_ADDRESS df s); reflexivity.
Qed.

(** On a string, [hexSequenceValidator] checks the pattern, then the size. *)
Lemma hexSequenceValidator_string pf df ms ut (s : string) :
  hexSequenceValidator pf df ms ut (VString s) =
  if negb (MATCH_HEX_STRING df s) then
    Throw (Error (labelled pf (hexSequence_notFormat ms)
                    (or_UNDEFINED df (VString s))))
  else if negb (String.length s <=? 1024)%nat then
    Throw (Error (labelled pf (hexSequence_tooBig ms)
                    (or_UNDEFINED df (VString s))))
  else Return true.
Proof.
  unfold hexSequenceValidator, validatorGenerator, run_sequence, assertTruth.
  simpl.
  length_tests.
  destruct (MATCH_HEX_STRING df s); simpl; [|reflexivity].
  destruct (_ <=? _)%nat; reflexivity.
Qed.

(** On a string, [messageValidator] checks the size and nothing else. *)
Lemma messageValidator_string pf df ms ut (s : string) :
  messageValidator pf df ms ut (VString s) =
  if negb (String.length s <=? 1024)%nat then
    Throw (Error (labelled pf (message_tooBig ms)
                    (or_UNDEFINED df (VString s))))
  else Return true.
Proof.
  unfold messageValidator, validatorGenerator, run_sequence, assertTruth.
  simpl.
  length_tests.
  destruct (_ <=? _)%nat; reflexivity.
Qed.

Lemma length_repeat_char (c : ascii) (n : nat) :
  String.length (repeat (String c "") n) = n.
Proof.
  induction n as [|n IH]; [reflexivity|].
  change (S (String.length (repeat (String c "") n)) = S n).
  now rewrite IH.
Qed.

(** C8: [messageValidator] returns true on every string of at most 1024
    code units, whatever it holds, and fails with the too-large message on
    every longer one; no pattern is consulted. *)
Theorem messageValidator_only_bounds_the_size pf df ms ut :
  (forall s : string,
      messageValidator pf df ms ut (VString s) =
      if (String.length s <=? 1024)%nat then Return true
      else Throw (Error (message_tooBig ms +:+ ": " +:+ s)))
  /\ messageValidator pf df ms ut (VString "hello") = Return true
  /\ messageValidator pf df ms ut (VString (repeat "a" 1025))
     = Throw (Error (message_tooBig ms +:+ ": " +:+ repeat "a" 1025)).
Proof.
  assert (Hall : forall s : string,
      messageValidator pf df ms ut (VString s) =
      if (String.length s <=? 1024)%nat then Return true
      else Throw (Error (message_tooBig ms +:+ ": " +:+ s))).
  { intros s. rewrite messageValidator_string.
    destruct (Nat.leb_spec (String.length s) 1024) as [Hle|Hgt]; simpl.
    - reflexivity.
    - rewrite labelled_nonempty; [reflexivity|].
      intros ->. simpl in Hgt. lia. }
  split; [exact Hall|split].
  - rewrite Hall. reflexivity.
  - rewrite Hall, length_repeat_char. reflexivity.
Qed.

(** C6: on a string, [addressValidator] looks at the length (40 or 42)
    before the pattern, so a wrong length gives the wrong-length message
    whatever the characters are, and only a string of the right length can
    get the bad-pattern message.  [0x] and forty [a] pass; forty-one [a] fail
    on the length; [0x] and forty [g] fail on the pattern. *)
Theorem addressValidator_length_before_pattern pf ms ut :
  (forall df (s : string),
      addressValidator pf df ms ut (VString s) =
      if negb ((String.length s =? 40)%nat || (String.length s =? 42)%nat)
      then Throw (Error (labelled pf (address_notLength ms)
                           (or_UNDEFINED df (VString s))))
      else if negb (MATCH_ADDRESS df s)
      then Throw (Error (labelled pf (address_notFormat ms)
                           (or_UNDEFINED df (VString s))))
      else Return true)
  /\ addressValidator pf purser_defaults ms ut
       (VString ("0x" +:+ repeat "a" 40)) = Return true
  /\ addressValidator pf purser_defaults ms ut (VString (repeat "a" 41))
     = Throw (Error (address_notLength ms +:+ ": " +:+ repeat "a" 41))
  /\ addressValidator pf purser_defaults ms ut
       (VString ("0x" +:+ repeat "g" 40))
     = Throw (Error (address_notFormat ms +:+ ": "
                     +:+ "0x" +:+ repeat "g" 40)).
Proof.
  split; [intros df s; apply addressValidator_string|].
  repeat split; rewrite addressValidator_string; reflexivity.
Qed.

(** C4, as found in the code: [hexSequenceValidator] fails on every string
    longer than 1024 code units, with the bad-pattern message when the
    pattern does not match it and with the too-large message when it does;
    [0x] followed by 1024 [f] is 1026 code units long and fails as too large,
    while [0x] followed by 1022 [f], 1024 code units, passes. *)
Theorem hexSequenceValidator_rejects_over_1024 pf ms ut :
  (forall df (s : string),
      (1024 < String.length s)%nat ->
      hexSequenceValidator pf df ms ut (VString s) =
      Throw (Error ((if MATCH_HEX_STRING df s then hexSequence_tooBig ms
                     else hexSequence_notFormat ms) +:+ ": " +:+ s)))
  /\ String.length ("0x" +:+ repeat "f" 1024) = 1026%nat
  /\ hexSequenceValidator pf purser_defaults ms ut
       (VString ("0x" +:+ repeat "f" 1024))
     = Throw (Error (hexSequence_tooBig ms +:+ ": "
                     +:+ "0x" +:+ repeat "f" 1024))
  /\ hexSequenceValidator pf purser_defaults ms ut
       (VString ("0x" +:+ repeat "f" 1022)) = Return true.
Proof.
  split; [|repeat split; try rewrite hexSequenceValidator_string; reflexivity].
  intros df s Hlen. rewrite hexSequenceValidator_string.
  assert (Hs : s <> "") by (intros ->; simpl in Hlen; lia).
  destruct (MATCH_HEX_STRING df s); simpl.
  - destruct (Nat.leb_spec (String.length s) 1024); [lia|]. simpl.
    now rewrite labelled_nonempty.
  - now rewrite labelled_nonempty.
Qed.

(** The 1026 code units [0x], [f] 1024 times, are rejected: evidence for
    [hexSequenceValidator_rejects_over_1024] at a concrete string. *)
Lemma hexSequenceValidator_rejects_over_1024_witness :
  (1024 < String.length ("0x" +:+ repeat "f" 1024))%nat
  /\ hexSequenceValidator Sample.platform purser_defaults category_messages
       Sample.utils (VString ("0x" +:+ repeat "f" 1024))
     = Throw (Error ("too-large: " +:+ "0x" +:+ repeat "f" 1024)).
Proof.
  split; [vm_compute; lia|].
  exact (proj1 (hexSequenceValidator_rejects_over_1024 Sample.platform
                  category_messages Sample.utils)
           purser_defaults ("0x" +:+ repeat "f" 1024)
           ltac:(vm_compute; lia)).
Defined.

(** C4 as stated fails: the 1026 code units [0x], [f] 1024 times, do not
    pass [hexSequenceValidator]; the size rule rejects them. *)
Lemma hexSequenceValidator_0x_f1024_fails :
  hexSequenceValidator Sample.platform purser_defaults category_messages
    Sample.utils (VString ("0x" +:+ repeat "f" 1024))
  = Throw (Error ("too-large: " +:+ "0x" +:+ repeat "f" 1024))
  /\ hexSequenceValidator Sample.platform purser_defaults category_messages
       Sample.utils (VString ("0x" +:+ repeat "f" 1024))
     <> Return true.
Proof. split; [vm_compute; reflexivity|vm_compute; discriminate]. Qed.

(** C3, as found in the code: on a string the type check passes and
    - [addressValidator] checks the length, then the pattern;
    - [hexSequenceValidator] checks the pattern, then the size;
    - [messageValidator] checks the size, and has no pattern check;
    in each the first check that fails, in that order, gives the error.  On
    a boolean or a Number [messageValidator] fails on the type check. *)
Theorem string_validators_check_order pf df ms ut :
  (forall s : string,
      addressValidator pf df ms ut (VString s) =
      if negb (String.eqb (Js.typeof (VString s)) "string")
      then Throw (Error (labelled pf (address_notStringSequence ms)
                           (serialized df ut (VString s))))
      else if negb ((String.length s =? 40)%nat
                    || (String.length s =? 42)%nat)
      then Throw (Error (labelled pf (address_notLength ms)
                           (or_UNDEFINED df (VString s))))
      else if negb (MATCH_ADDRESS df s)
      then Throw (Error (labelled pf (address_notFormat ms)
                           (or_UNDEFINED df (VString s))))
      else Return true)
  /\ (forall s : string,
         hexSequenceValidator pf df ms ut (VString s) =
         if negb (String.eqb (Js.typeof (VString s)) "string")
         then Throw (Error (labelled pf (hexSequence_notStringSequence ms)
                              (serialized df ut (VString s))))
         else if negb (MATCH_HEX_STRING df s)
         then Throw (Error (labelled pf (hexSequence_notFormat ms)
                              (or_UNDEFINED df (VString s))))
         else if negb (String.length s <=? 1024)%nat
         then Throw (Error (labelled pf (hexSequence_tooBig ms)
                              (or_UNDEFINED df (VString s))))
         else Return true)
  /\ (forall s : string,
         messageValidator pf df ms ut (VString s) =
         if negb (String.eqb (Js.typeof (VString s)) "string")
         then Throw (Error (labelled pf (message_notString ms)
                              (serialized df ut (VString s))))
         else if negb (String.length s <=? 1024)%nat
         then Throw (Error (labelled pf (message_tooBig ms)
                              (or_UNDEFINED df (VString s))))
         else Return true)
  /\ (forall b : bool,
         messageValidator pf df ms ut (VBoolean b)
         = Throw (Error (labelled pf (message_notString ms)
                           (serialized df ut (VBoolean b)))))
  /\ (forall n : Num.number,
         messageValidator pf df ms ut (VNumber n)
         = Throw (Error (labelled pf (message_notString ms)
                           (serialized df ut (VNumber n))))).
Proof.
  split; [intros s; apply addressValidator_string|].
  split; [intros s; apply hexSequenceValidator_string|].
  split; [intros s; apply messageValidator_string|].
  split; reflexivity.
Qed.

(** C3 as stated fails: it puts the size check of [hexSequenceValidator]
    before its pattern check.  On 1025 [g], too long and not hexadecimal,
    the code raises the bad-pattern message, not the too-large one. *)
Lemma hexSequenceValidator_pattern_before_size :
  Js.length_le (Some (Z.of_nat (String.length (repeat "g" 1025)))) 1024
  = false
  /\ hexSequenceValidator Sample.platform purser_defaults category_messages
       Sample.utils (VString (repeat "g" 1025))
     = Throw (Error ("bad-pattern: " +:+ repeat "g" 1025))
  /\ hexSequenceValidator Sample.platform purser_defaults category_messages
       Sample.utils (VString (repeat "g" 1025))
     <> Throw (Error ("too-large: " +:+ repeat "g" 1025)).
Proof.
  split; [vm_compute; reflexivity|].
  split; [vm_compute; reflexivity|vm_compute; discriminate].
Qed.

(** The rules are built before the runner sees them: on a Number or a
    boolean the [match] call of [addressValidator] and [hexSequenceValidator]
    throws while the rule list is built, and on [undefined] and [null] the
    read of [length] or the [match] call does, in all three validators.  The
    TypeError is not caught, and the not-a-string message is never made. *)
Lemma string_validators_TypeError pf df ms ut :
  (forall n, addressValidator pf df ms ut (VNumber n) = Throw TypeError)
  /\ (forall b, addressValidator pf df ms ut (VBoolean b) = Throw TypeError)
  /\ (forall n, hexSequenceValidator pf df ms ut (VNumber n) = Throw TypeError)
  /\ (forall b,
         hexSequenceValidator pf df ms ut (VBoolean b) = Throw TypeError)
  /\ addressValidator pf df ms ut VUndefined = Throw TypeError
  /\ addressValidator pf df ms ut VNull = Throw TypeError
  /\ hexSequenceValidator pf df ms ut VUndefined = Throw TypeError
  /\ hexSequenceValidator pf df ms ut VNull = Throw TypeError
  /\ messageValidator pf df ms ut VUndefined = Throw TypeError
  /\ messageValidator pf df ms ut VNull = Throw TypeError.
Proof. repeat split; reflexivity. Qed.

(** ** Splitting *)

Lemma append_nil_l (t : string) : "" +:+ t = t.
Proof. reflexivity. Qed.

Lemma append_cons (c : ascii) (a t : string) :
  String c a +:+ t = String c (a +:+ t).
Proof. reflexivity. Qed.

Lemma append_nil_r (a : string) : a +:+ "" = a.
Proof.
  induction a as [|c a IH]; [reflexivity|].
  now rewrite append_cons, IH.
Qed.

Section Split.

Variable c0 : ascii.
Variable sep' : string.

Let sep : string := String c0 sep'.

Lemma starts_with_app (u t : string) : Str.starts_with u (u +:+ t) = true.
Proof.
  induction u as [|c u IH]; [reflexivity|].
  rewrite append_cons. cbn [Str.starts_with].
  now rewrite Ascii.eqb_refl.
Qed.

Lemma split_pieces_skip (u t : string) :
  Str.split_pieces sep (String.length u) (u +:+ t)
  = Str.split_pieces sep 0 t.
Proof. induction u as [|c u IH]; [reflexivity|exact IH]. Qed.

Lemma split_pieces_free (a t : string) :
  free_of c0 a = true ->
  Str.split_pieces sep 0 (a +:+ t)
  = (a +:+ fst (Str.split_pieces sep 0 t), snd (Str.split_pieces sep 0 t)).
Proof.
  induction a as [|c a IH]; intros Hfree.
  - rewrite !append_nil_l. now destruct (Str.split_pieces sep 0 t).
  - cbn [free_of Str.forallb] in Hfree. apply andb_prop in Hfree as [Hc Ha].
    rewrite !append_cons.
    cbn [Str.split_pieces]. unfold sep at 1. cbn [Str.starts_with].
    rewrite Ascii.eqb_sym. apply negb_true_iff in Hc. rewrite Hc.
    cbn [andb]. fold sep. rewrite (IH Ha). reflexivity.
Qed.

Lemma split_pieces_sep (t : string) :
  Str.split_pieces sep 0 (sep +:+ t)
  = ("", fst (Str.split_pieces sep 0 t) :: snd (Str.split_pieces sep 0 t)).
Proof.
  pose proof (starts_with_app sep t) as Hpre.
  unfold sep in Hpre |- * at 2. rewrite append_cons in Hpre |- *.
  cbn [Str.split_pieces]. fold sep. fold sep in Hpre. rewrite Hpre.
  replace (String.length sep - 1)%nat with (String.length sep')
    by (unfold sep; cbn [String.length]; lia).
  rewrite split_pieces_skip.
  now destruct (Str.split_pieces sep 0 t).
Qed.

(** A piece free of the separator's first code unit, the separator, then
    the rest: the piece is the first element of the split. *)
Lemma split_cons (a t : string) :
  free_of c0 a = true ->
  Str.split (a +:+ sep +:+ t) sep = a :: Str.split t sep.
Proof.
  intros Hfree. unfold Str.split, sep. fold sep.
  rewrite (split_pieces_free _ _ Hfree), split_pieces_sep.
  cbn [fst snd]. rewrite append_nil_r.
  now destruct (Str.split_pieces sep 0 t).
Qed.

Lemma split_free (a : string) :
  free_of c0 a = true -> Str.split a sep = [a].
Proof.
  intros Hfree. unfold Str.split, sep. fold sep.
  rewrite <- (append_nil_r a) at 1.
  rewrite (split_pieces_free _ _ Hfree). cbn [Str.split_pieces fst snd].
  now rewrite append_nil_r.
Qed.

(** Pieces free of the separator's first code unit, joined with the
    separator, split back into themselves. *)
Lemma split_join (parts : list string) :
  parts <> [] ->
  Forall (fun p => free_of c0 p = true) parts ->
  Str.split (Str.join sep parts) sep = parts.
Proof.
  induction parts as [|a parts IH]; [contradiction|].
  intros _ Hall. inversion Hall as [|? ? Ha Hparts]; subst.
  destruct parts as [|b parts].
  - now apply split_free.
  - change (Str.join sep (a :: b :: parts))
      with (a +:+ sep +:+ Str.join sep (b :: parts)).
    rewrite (split_cons _ _ Ha). f_equal. now apply IH.
Qed.

End Split.

(** ** [derivationPathValidator] *)

Lemma bind_Return {A B : Type} (a : A) (f : A -> result B) :
  Return a ≫= f = f a.
Proof. reflexivity. Qed.

(** Every element of a split is a string, so matching each of them against
    a pattern never throws. *)
Lemma mapM_matches (re : string -> bool) (l : list string) :
  mapM (fun value => Js.matches (VString value) re) l = Return (map re l).
Proof.
  induction l as [|x l IH]; [reflexivity|].
  change (mapM (fun value => Js.matches (VString value) re) (x :: l))
    with (y ← Js.matches (VString x) re;
          k ← mapM (fun value => Js.matches (VString value) re) l;
          mret (y :: k)).
  now rewrite IH.
Qed.

Lemma derivationPathValidator_four_segments pf df ms ut
      (path s0 s1 s2 s3 : string) :
  Str.split path (PATH_DELIMITER df) = [s0; s1; s2; s3] ->
  derivationPathValidator pf df ms ut (VString path) =
  headerKey ← Js.toLowerCase (Js.index (Str.split s0 (SPLITTER df)) 0);
  validatorGenerator ut [
    Rule (String.eqb headerKey (PATH_HEADER_KEY df))
      (segment_message pf df (derivationPath_notValidHeaderKey ms)
         (VString s0));
    Rule (Num.strict_eq
            (Js.parseInt pf (Js.index (Str.split s0 (SPLITTER df)) 1))
            (PATH_PURPOSE df))
      (segment_message pf df (derivationPath_notValidPurpouse ms)
         (VString s0));
    Rule (Num.strict_eq (Str.parseInt s1) (PATH_COIN_MAINNET df)
          || Num.strict_eq (Str.parseInt s1) (PATH_COIN_TESTNET df))
      (segment_message pf df (derivationPath_notValidCoin ms) (VString s1));
    Rule (MATCH_DIGITS df s2)
      (segment_message pf df (derivationPath_notValidAccount ms)
         (VString s2));
    Rule (forallb (fun truth => negb (Bool.eqb truth false))
            (map (MATCH_DIGITS df) (Str.split s3 (SPLITTER df))))
      (segment_message pf df (derivationPath_notValidChangeIndex ms)
         (VString s3));
    Rule (Nat.leb (List.length (Str.split s3 (SPLITTER df))) 2)
      (segment_message pf df (derivationPath_notValidAccountIndex ms)
         (VString s3))
  ] (labelled pf (derivationPath_genericError ms)
       (or_UNDEFINED df (VString path))).
Proof.
  intros Hsplit. unfold derivationPathValidator.
  cbn [Js.split]. rewrite bind_Return, Hsplit. cbv beta.
  change (try_catch (mret ?x) _) with (Return x). rewrite bind_Return.
  cbn [assertTruth expression List.length Nat.eqb Js.index lookup list_lookup
       Js.split].
  rewrite !bind_Return.
  destruct (Js.toLowerCase _) as [headerKey|e]; [|reflexivity].
  rewrite !bind_Return.
  change (Js.matches (VString s2) (MATCH_DIGITS df))
    with (Return (MATCH_DIGITS df s2)).
  rewrite !bind_Return, mapM_matches, !bind_Return.
  reflexivity.
Qed.

Lemma is_digit_free (c : ascii) :
  Str.is_digit c = true ->
  negb (Ascii.eqb c "'") = true /\ negb (Ascii.eqb c "/") = true.
Proof.
  destruct c as [[] [] [] [] [] [] [] []]; vm_compute; intuition congruence.
Qed.

Lemma forallb_impl (p q : ascii -> bool) (s : string) :
  (forall c, p c = true -> q c = true) ->
  Str.forallb p s = true -> Str.forallb q s = true.
Proof.
  intros Hpq. induction s as [|c s IH]; [reflexivity|].
  cbn [Str.forallb]. intros [Hc Hs]%andb_prop.
  now rewrite (Hpq _ Hc), (IH Hs).
Qed.

Lemma DIGITS_spec (s : string) :
  Match.DIGITS s = true ->
  s <> "" /\ free_of "'" s = true /\ free_of "/" s = true.
Proof.
  unfold Match.DIGITS. intros [Hne Hdigits]%andb_prop.
  split; [|split].
  - intros ->. discriminate.
  - revert Hdigits. apply forallb_impl. intros c Hc. now apply is_digit_free.
  - revert Hdigits. apply forallb_impl. intros c Hc. now apply is_digit_free.
Qed.

Lemma free_of_app (c : ascii) (a b : string) :
  free_of c (a +:+ b) = free_of c a && free_of c b.
Proof.
  induction a as [|x a IH]; [reflexivity|].
  rewrite append_cons. unfold free_of in *. cbn [Str.forallb].
  now rewrite IH, andb_assoc.
Qed.

Lemma free_of_join_digits (indices : list string) :
  Forall (fun i => Match.DIGITS i = true) indices ->
  free_of "'" (Str.join "/" indices) = true.
Proof.
  induction 1 as [|i indices Hi Hall IH]; [reflexivity|].
  destruct indices as [|j indices].
  - now apply DIGITS_spec.
  - change (Str.join "/" (i :: j :: indices))
      with (i +:+ "/" +:+ Str.join "/" (j :: indices)).
    rewrite !free_of_app, IH. now destruct (DIGITS_spec _ Hi) as (_ & -> & _).
Qed.

Lemma join_nonempty (glue : string) (indices : list string) :
  indices <> [] ->
  Forall (fun i => i <> "") indices -> Str.join glue indices <> "".
Proof.
  destruct indices as [|i indices]; [contradiction|].
  intros _ Hall. inversion Hall as [|? ? Hi _]; subst.
  destruct indices; [exact Hi|].
  destruct i; [contradiction|discriminate].
Qed.

Lemma split_path_of (header coin account : string) (indices : list string) :
  header = "m" \/ header = "M" ->
  coin = "60" \/ coin = "1" ->
  Match.DIGITS account = true ->
  Forall (fun i => Match.DIGITS i = true) indices ->
  Str.split (path_of header coin account indices)
    (PATH_DELIMITER purser_defaults)
  = [header +:+ "/44"; coin; account; Str.join "/" indices].
Proof.
  intros Hheader Hcoin Haccount Hindices.
  change (PATH_DELIMITER purser_defaults) with (String "'" "/").
  change (path_of header coin account indices)
    with (header +:+ "/44'/" +:+ coin +:+ "'/" +:+ account +:+ "'/"
          +:+ Str.join "/" indices).
  assert (Hpath : header +:+ "/44'/" +:+ coin +:+ "'/" +:+ account +:+ "'/"
                  +:+ Str.join "/" indices
                  = (header +:+ "/44") +:+ "'/" +:+ coin +:+ "'/"
                    +:+ account +:+ "'/" +:+ Str.join "/" indices)
    by (destruct Hheader as [-> | ->]; reflexivity).
  rewrite Hpath.
  rewrite split_cons by (destruct Hheader as [-> | ->]; reflexivity).
  rewrite split_cons by (destruct Hcoin as [-> | ->]; reflexivity).
  rewrite split_cons by (now apply DIGITS_spec).
  rewrite split_free by (now apply free_of_join_digits).
  reflexivity.
Qed.

Lemma all_digits (indices : list string) :
  Forall (fun i => Match.DIGITS i = true) indices ->
  forallb (fun truth => negb (Bool.eqb truth false))
    (map Match.DIGITS indices) = true.
Proof.
  induction 1 as [|i indices Hi _ IH]; [reflexivity|].
  cbn [map forallb]. now rewrite Hi, IH.
Qed.

Lemma split_indices (indices : list string) :
  indices <> [] ->
  Forall (fun i => Match.DIGITS i = true) indices ->
  Str.split (Str.join "/" indices) "/" = indices.
Proof.
  intros Hne Hall. apply (split_join "/" ""); [exact Hne|].
  eapply Forall_impl; [exact Hall|]. intros i Hi. now apply DIGITS_spec.
Qed.

(** A path with header [m], purpose 44, coin type 60 or 1, a digits-only
    account and digits-only indices passes the first five rules; the sixth
    one counts the indices. *)
Lemma derivationPathValidator_path_of pf ms ut
      (header coin account : string) (indices : list string) :
  header = "m" \/ header = "M" ->
  coin = "60" \/ coin = "1" ->
  Match.DIGITS account = true ->
  Forall (fun i => Match.DIGITS i = true) indices ->
  indices <> [] ->
  derivationPathValidator pf purser_defaults ms ut
    (VString (path_of header coin account indices))
  = if (List.length indices <=? 2)%nat then Return true
    else Throw (Error (Str.join (fragment_glue ut)
                         [derivationPath_notValidAccountIndex ms +:+ ":";
                          Str.join "/" indices])).
Proof.
  intros Hheader Hcoin Haccount Hindices Hne.
  rewrite (derivationPathValidator_four_segments _ _ _ _ _ _ _ _ _
             (split_path_of _ _ _ _ Hheader Hcoin Haccount Hindices)).
  change (SPLITTER purser_defaults) with "/".
  change (MATCH_DIGITS purser_defaults) with Match.DIGITS.
  rewrite (split_indices _ Hne Hindices), (all_digits _ Hindices), Haccount.
  assert (Hparts : Str.split (header +:+ "/44") "/" = [header; "44"])
    by (destruct Hheader as [-> | ->]; reflexivity).
  rewrite Hparts.
  assert (Hkey : Js.toLowerCase (Js.index [header; "44"] 0) = Return "m")
    by (destruct Hheader as [-> | ->]; reflexivity).
  rewrite Hkey, bind_Return.
  assert (Hpurpose : Num.strict_eq (Js.parseInt pf (Js.index [header; "44"] 1))
                       (PATH_PURPOSE purser_defaults) = true)
    by (vm_compute; reflexivity).
  assert (Hcointype : Num.strict_eq (Str.parseInt coin)
                        (PATH_COIN_MAINNET purser_defaults)
                      || Num.strict_eq (Str.parseInt coin)
                           (PATH_COIN_TESTNET purser_defaults) = true)
    by (destruct Hcoin as [-> | ->]; vm_compute; reflexivity).
  rewrite Hpurpose, Hcointype.
  unfold validatorGenerator, run_sequence, assertTruth.
  cbn [expression rule_message String.eqb PATH_HEADER_KEY purser_defaults].
  rewrite Ascii.eqb_refl, !bind_Return.
  destruct (List.length indices <=? 2)%nat; [reflexivity|].
  unfold render, segment_message, or_UNDEFINED, Js.or_else.
  cbn [Js.truthy mbind result_bind].
  assert (Hci : Str.join "/" indices <> "").
  { apply join_nonempty; [exact Hne|].
    eapply Forall_impl; [exact Hindices|]. intros i Hi. now apply DIGITS_spec. }
  destruct (String.eqb_spec (Str.join "/" indices) ""); [contradiction|].
  reflexivity.
Qed.

(** A string that does not split into four segments fails on the segment
    count, whatever the constants are. *)
Lemma derivationPathValidator_wrong_part_count pf df ms ut (path : string) :
  List.length (Str.split path (PATH_DELIMITER df)) <> 4%nat ->
  derivationPathValidator pf df ms ut (VString path)
  = Throw (Error (Str.join (fragment_glue ut)
                    ([derivationPath_notValidParts ms +:+ ": ["]
                     ++ Str.split path (PATH_DELIMITER df) ++ ["]"]))).
Proof.
  intros Hlen. unfold derivationPathValidator.
  cbn [Js.split]. rewrite bind_Return.
  change (try_catch (mret ?x) _) with (Return x). rewrite bind_Return.
  unfold assertTruth. cbn [expression rule_message].
  destruct (Nat.eqb_spec (List.length (Str.split path (PATH_DELIMITER df))) 4);
    [contradiction|].
  reflexivity.
Qed.

(** The pieces of a split at a one-unit separator are free of it. *)
Lemma split_pieces_char_free (c : ascii) (s : string) :
  free_of c (fst (Str.split_pieces (String c "") 0 s)) = true
  /\ Forall (fun p => free_of c p = true)
       (snd (Str.split_pieces (String c "") 0 s)).
Proof.
  induction s as [|x s [IHp IHps]]; [split; [reflexivity|constructor]|].
  cbn [Str.split_pieces Str.starts_with String.length Nat.sub].
  rewrite andb_true_r.
  destruct (Str.split_pieces (String c "") 0 s) as [p ps].
  cbn [fst snd] in *.
  destruct (Ascii.eqb c x) eqn:Hcx; cbn [fst snd].
  - split; [reflexivity|now constructor].
  - split; [|exact IHps].
    unfold free_of in *. cbn [Str.forallb].
    now rewrite Ascii.eqb_sym, Hcx, IHp.
Qed.

Lemma split_char_free (c : ascii) (s : string) :
  Forall (fun p => free_of c p = true) (Str.split s (String c "")).
Proof.
  unfold Str.split. destruct (split_pieces_char_free c s) as [Hp Hps].
  destruct (Str.split_pieces (String c "") 0 s) as [p ps].
  now constructor.
Qed.

(** Were the path split at the slash, as the change/index segment is, no
    string would be accepted: segment 0 would hold no slash, so no purpose
    could be read out of it.  The top-level delimiter is therefore not the
    slash alone. *)
Lemma slash_delimiter_accepts_nothing pf df ms ut (path : string) :
  PATH_DELIMITER df = "/" ->
  SPLITTER df = "/" ->
  derivationPathValidator pf df ms ut (VString path) <> Return true.
Proof.
  intros Hdelimiter Hsplitter.
  destruct (Nat.eq_dec (List.length (Str.split path (PATH_DELIMITER df))) 4%nat)
    as [Hfour|Hother].
  - pose proof (split_char_free "/" path) as Hfree.
    rewrite Hdelimiter in Hfour.
    destruct (Str.split path "/") as [|s0 [|s1 [|s2 [|s3 [|s4 rest]]]]] eqn:Hsplit;
      try discriminate.
    inversion Hfree as [|? ? Hs0 _]; subst.
    rewrite <- Hdelimiter in Hsplit.
    rewrite (derivationPathValidator_four_segments _ _ _ _ _ _ _ _ _ Hsplit).
    rewrite Hsplitter, (split_free "/" "" _ Hs0).
    change (Js.toLowerCase (Js.index [s0] 0)) with (Return (Str.toLowerCase s0)).
    rewrite bind_Return.
    unfold validatorGenerator, run_sequence, assertTruth.
    cbn [expression].
    destruct (String.eqb _ _); discriminate.
  - now rewrite derivationPathValidator_wrong_part_count.
Qed.

Lemma split_pieces_absent (c : ascii) (sep' s : string) :
  occurs (String c sep') s = false ->
  Str.split_pieces (String c sep') 0 s = (s, []).
Proof.
  induction s as [|x s IH]; [reflexivity|].
  cbn [occurs]. intros [Hhere Hlater]%orb_false_elim.
  cbn [Str.split_pieces]. rewrite Hhere, (IH Hlater). reflexivity.
Qed.

Lemma starts_with_prefixes (sep s : string) :
  Str.starts_with sep s = true -> In sep (prefixes s).
Proof.
  revert s. induction sep as [|c sep IH]; intros s Hs.
  - destruct s; left; reflexivity.
  - destruct s as [|x s]; [discriminate|].
    cbn [Str.starts_with] in Hs. apply andb_prop in Hs as [Hc Hs].
    apply Ascii.eqb_eq in Hc as ->.
    right. apply in_map. now apply IH.
Qed.

Lemma occurs_substrings (sep s : string) :
  occurs sep s = true -> In sep (substrings s).
Proof.
  induction s as [|x s IH]; cbn [occurs substrings]; intros Hs;
    apply in_or_app.
  - rewrite orb_false_r in Hs. left. now apply starts_with_prefixes.
  - apply orb_prop in Hs as [Hs|Hs].
    + left. now apply starts_with_prefixes.
    + right. now apply IH.
Qed.

(** With the other constants as the specification gives them, the
    apostrophe-slash pair is the only top-level delimiter under which
    [m/44'/60'/0'/0] is accepted. *)
Lemma delimiter_forced pf ms ut (delimiter : string) :
  derivationPathValidator pf (with_delimiter delimiter) ms ut
    (VString "m/44'/60'/0'/0") = Return true ->
  delimiter = "'/".
Proof.
  intros Haccepted.
  destruct (occurs delimiter "m/44'/60'/0'/0") eqn:Hoccurs.
  - apply occurs_substrings in Hoccurs.
    assert (Hcheck :
      forallb (fun d => String.eqb d "'/"
                        || negb (is_true
                                   (derivationPathValidator pf
                                      (with_delimiter d) ms ut
                                      (VString "m/44'/60'/0'/0"))))
        (substrings "m/44'/60'/0'/0") = true) by (vm_compute; reflexivity).
    rewrite forallb_forall in Hcheck. specialize (Hcheck _ Hoccurs).
    rewrite Haccepted in Hcheck. cbn [is_true negb] in Hcheck.
    rewrite orb_false_r in Hcheck. now apply String.eqb_eq.
  - destruct delimiter as [|c sep']; [discriminate|].
    rewrite derivationPathValidator_wrong_part_count in Haccepted;
      [discriminate|].
    cbn [PATH_DELIMITER with_delimiter]. unfold Str.split.
    now rewrite (split_pieces_absent _ _ _ Hoccurs).
Qed.

(** C1: every path [h/44'/c'/a'/i] or [h/44'/c'/a'/i/j] with [h] the letter
    m in either case, [c] the coin type 60 (mainnet) or 1 (testnet) and [a],
    [i], [j] runs of digits splits into exactly four segments and is
    accepted; so are [m/44'/60'/0'/0] and [m/44'/1'/0'/0].  A path that does
    not split into exactly four segments fails with the wrong-part-count
    message, which lists the segments. *)
Theorem derivationPathValidator_accepts_conforming_paths pf ms ut :
  (forall (header coin account : string) (indices : list string),
      header = "m" \/ header = "M" ->
      coin = "60" \/ coin = "1" ->
      Match.DIGITS account = true ->
      Forall (fun i => Match.DIGITS i = true) indices ->
      (1 <= List.length indices <= 2)%nat ->
      List.length (Str.split (path_of header coin account indices)
                     (PATH_DELIMITER purser_defaults)) = 4%nat
      /\ derivationPathValidator pf purser_defaults ms ut
           (VString (path_of header coin account indices)) = Return true)
  /\ derivationPathValidator pf purser_defaults ms ut
       (VString "m/44'/60'/0'/0") = Return true
  /\ derivationPathValidator pf purser_defaults ms ut
       (VString "m/44'/1'/0'/0") = Return true
  /\ (forall (df : Defaults) (path : string),
         List.length (Str.split path (PATH_DELIMITER df)) <> 4%nat ->
         derivationPathValidator pf df ms ut (VString path)
         = Throw (Error (Str.join (fragment_glue ut)
                           ([derivationPath_notValidParts ms +:+ ": ["]
                            ++ Str.split path (PATH_DELIMITER df)
                            ++ ["]"])))).
Proof.
  assert (Hconforming :
    forall (header coin account : string) (indices : list string),
      header = "m" \/ header = "M" ->
      coin = "60" \/ coin = "1" ->
      Match.DIGITS account = true ->
      Forall (fun i => Match.DIGITS i = true) indices ->
      (1 <= List.length indices <= 2)%nat ->
      List.length (Str.split (path_of header coin account indices)
                     (PATH_DELIMITER purser_defaults)) = 4%nat
      /\ derivationPathValidator pf purser_defaults ms ut
           (VString (path_of header coin account indices)) = Return true).
  { intros header coin account indices Hheader Hcoin Haccount Hindices Hlen.
    split.
    - now rewrite split_path_of.
    - rewrite derivationPathValidator_path_of; try assumption.
      + destruct (Nat.leb_spec (List.length indices) 2); [reflexivity|lia].
      + intros ->. simpl in Hlen. lia. }
  split; [exact Hconforming|].
  split.
  { apply (Hconforming "m" "60" "0" ["0"]);
      [auto|auto|reflexivity|repeat constructor|simpl; lia]. }
  split.
  { apply (Hconforming "m" "1" "0" ["0"]);
      [auto|auto|reflexivity|repeat constructor|simpl; lia]. }
  intros df path Hlen. now apply derivationPathValidator_wrong_part_count.
Qed.

(** [M/44'/1'/0'/0/5] is accepted and [m/44'/60'/0'], three segments, fails
    on the segment count: evidence for
    [derivationPathValidator_accepts_conforming_paths]. *)
Lemma derivationPathValidator_accepts_conforming_paths_witness :
  derivationPathValidator Sample.platform purser_defaults category_messages
    Sample.utils (VString "M/44'/1'/0'/0/5") = Return true
  /\ derivationPathValidator Sample.platform purser_defaults
       category_messages Sample.utils (VString "m/44'/60'/0'")
     = Throw (Error "wrong-part-count: [ m/44 60 0' ]").
Proof.
  pose proof (derivationPathValidator_accepts_conforming_paths
                Sample.platform category_messages Sample.utils)
    as (Hconforming & _ & _ & Hparts).
  split.
  - apply (Hconforming "M" "1" "0" ["0"; "5"]);
      [right; reflexivity|right; reflexivity|reflexivity
      |repeat constructor|simpl; lia].
  - apply (Hparts purser_defaults "m/44'/60'/0'"). vm_compute. lia.
Defined.

(** C7: a path whose header, purpose, coin type and account are in order
    and whose change/index segment is made of three or more runs of digits
    fails with the too-many-indices message: the sub-parts of the segment are
    those runs, the all-digits rule passes on them, and the rule that allows
    at most two sub-parts is the one that fails. *)
Theorem derivationPathValidator_too_many_indices pf ms ut
        (header coin account : string) (indices : list string) :
  header = "m" \/ header = "M" ->
  coin = "60" \/ coin = "1" ->
  Match.DIGITS account = true ->
  Forall (fun i => Match.DIGITS i = true) indices ->
  (3 <= List.length indices)%nat ->
  Js.index (Str.split (path_of header coin account indices)
              (PATH_DELIMITER purser_defaults)) 3
  = VString (Str.join "/" indices)
  /\ Str.split (Str.join "/" indices) (SPLITTER purser_defaults) = indices
  /\ forallb (fun truth => negb (Bool.eqb truth false))
       (map (MATCH_DIGITS purser_defaults) indices) = true
  /\ derivationPathValidator pf purser_defaults ms ut
       (VString (path_of header coin account indices))
     = Throw (Error (Str.join (fragment_glue ut)
                       [derivationPath_notValidAccountIndex ms +:+ ":";
                        Str.join "/" indices])).
Proof.
  intros Hheader Hcoin Haccount Hindices Hlen.
  assert (Hne : indices <> []) by (intros ->; simpl in Hlen; lia).
  split; [now rewrite split_path_of|].
  split; [now apply split_indices|].
  split; [now apply all_digits|].
  rewrite derivationPathValidator_path_of by assumption.
  destruct (Nat.leb_spec (List.length indices) 2); [lia|reflexivity].
Qed.

(** [m/44'/60'/0'/0/1/2] fails with the too-many-indices message: evidence
    for [derivationPathValidator_too_many_indices]. *)
Lemma derivationPathValidator_too_many_indices_witness :
  derivationPathValidator Sample.platform purser_defaults category_messages
    Sample.utils (VString "m/44'/60'/0'/0/1/2")
  = Throw (Error "too-many-indices: 0/1/2").
Proof.
  apply (derivationPathValidator_too_many_indices Sample.platform
           category_messages Sample.utils "m" "60" "0" ["0"; "1"; "2"]);
    [left; reflexivity|left; reflexivity|reflexivity
    |repeat constructor|simpl; lia].
Defined.

(** C2, as found in the code: on every input that is [undefined], [null], a
    boolean or a Number, [derivationPathValidator] catches the TypeError of
    the [split] call and fails with the not-a-string message; the message
    names the input when the input is truthy and carries the [UNDEFINED]
    placeholder when it is falsy ([undefined], [null], [false], a zero or
    NaN). *)
Theorem derivationPathValidator_not_a_string pf df ms ut (input : value) :
  (forall s : string, input <> VString s) ->
  derivationPathValidator pf df ms ut input
  = Throw (Error (derivationPath_notString ms +:+ ": "
                  +:+ (if Js.truthy input then Js.ToString pf input
                       else UNDEFINED df))).
Proof.
  intros Hinput. unfold derivationPathValidator.
  destruct input as [| |b|n|s]; [| | | |now destruct (Hinput s)];
    cbn [Js.split mbind result_bind try_catch];
    unfold labelled, or_UNDEFINED, Js.or_else.
  - reflexivity.
  - reflexivity.
  - destruct b; reflexivity.
  - cbn [Js.truthy]. destruct (Num.truthy n); reflexivity.
Qed.

(** The Number 5 and [undefined] fail with the not-a-string message:
    evidence for [derivationPathValidator_not_a_string]. *)
Lemma derivationPathValidator_not_a_string_witness :
  derivationPathValidator Sample.platform purser_defaults category_messages
    Sample.utils (VNumber (Num.of_Z 5))
  = Throw (Error "not-a-string: 5")
  /\ derivationPathValidator Sample.platform purser_defaults
       category_messages Sample.utils VUndefined
     = Throw (Error "not-a-string: undefined").
Proof.
  split.
  - apply (derivationPathValidator_not_a_string Sample.platform
             purser_defaults category_messages Sample.utils
             (VNumber (Num.of_Z 5))).
    intros s. discriminate.
  - apply (derivationPathValidator_not_a_string Sample.platform
             purser_defaults category_messages Sample.utils VUndefined).
    intros s. discriminate.
Defined.

(** C2 as stated fails: [false] is neither [undefined] nor [null], yet the
    message carries the placeholder and does not name the input. *)
Lemma derivationPathValidator_false_gets_placeholder :
  Js.ToString Sample.platform (VBoolean false) = "false"
  /\ derivationPathValidator Sample.platform purser_defaults
       category_messages Sample.utils (VBoolean false)
     = Throw (Error ("not-a-string: " +:+ UNDEFINED purser_defaults))
  /\ derivationPathValidator Sample.platform purser_defaults
       category_messages Sample.utils (VBoolean false)
     <> Throw (Error ("not-a-string: "
                      +:+ Js.ToString Sample.platform (VBoolean false))).
Proof.
  split; [reflexivity|].
  split; [reflexivity|vm_compute; discriminate].
Qed.


(** C9, as found in the code: the exported object carries the properties of
    the debug helper exactly when [ENV] is the string ['development'];
    for every other value of [ENV] it is the object literal alone, with the
    three keys [wallets], [utils] and [about] and nothing of the helper.
    The three keys are there in both cases. *)
Theorem colonyWallet_debug_only_in_development
        (ENV : string) (debug : gmap string Facade.export)
        (name version : string) :
  let exported := Facade.colonyWallet ENV debug name version in
  let core := Facade.core ENV name version in
  (if String.eqb ENV "development"
   then exported = debug ∪ core /\ debug ⊆ exported
   else exported = core
        /\ dom exported = ({[ "wallets"; "utils"; "about" ]} : gset string))
  /\ is_Some (exported !! "wallets")
  /\ is_Some (exported !! "utils")
  /\ is_Some (exported !! "about").
Proof.
  intros exported core.
  assert (Hcore : forall k, k = "wallets" \/ k = "utils" \/ k = "about" ->
                            is_Some (core !! k)).
  { intros k [-> | [-> | ->]]; unfold core, Facade.core;
      simplify_map_eq; eauto. }
  assert (Hexported : exported
                      = if String.eqb ENV "development" then debug ∪ core
                        else core).
  { unfold exported, Facade.colonyWallet, Facade.Object_assign.
    cbn [foldl]. rewrite (right_id_L ∅ (∪) core).
    destruct (String.eqb ENV "development"); [reflexivity|].
    apply (left_id_L ∅ (∪)). }
  split.
  - rewrite Hexported. destruct (String.eqb ENV "development").
    + split; [reflexivity|apply map_union_subseteq_l].
    + split; [reflexivity|].
      unfold core, Facade.core. rewrite !dom_insert_L, dom_singleton_L.
      set_solver.
  - assert (Hkeep : forall k, is_Some (core !! k) -> is_Some (exported !! k)).
    { intros k Hk. rewrite Hexported.
      destruct (String.eqb ENV "development"); [|exact Hk].
      apply lookup_union_is_Some. now right. }
    repeat split; apply Hkeep, Hcore; auto.
Qed.

(** C9 as stated fails: ['test'] is not a production build, yet with
    [ENV] at ['test'] a helper that brings the key [debug] leaves no trace
    in the exported object. *)
Lemma colonyWallet_test_build_has_no_debug :
  String.eqb "test" "production" = false
  /\ String.eqb "test" "development" = false
  /\ ({[ "debug" := Facade.Imported "debug" ]} : gmap string Facade.export)
     !! "debug" = Some (Facade.Imported "debug")
  /\ Facade.colonyWallet "test" {[ "debug" := Facade.Imported "debug" ]}
       "purser" "1.0.0" !! "debug" = None
  /\ Facade.colonyWallet "test" {[ "debug" := Facade.Imported "debug" ]}
       "purser" "1.0.0"
     = Facade.core "test" "purser" "1.0.0".
Proof.
  split; [reflexivity|]. split; [reflexivity|].
  split; [apply lookup_singleton_eq|].
  assert (Hexported :
    Facade.colonyWallet "test" {[ "debug" := Facade.Imported "debug" ]}
      "purser" "1.0.0"
    = Facade.core "test" "purser" "1.0.0").
  { unfold Facade.colonyWallet, Facade.Object_assign.
    change (String.eqb "test" "development") with false.
    cbn [foldl]. rewrite (right_id_L ∅ (∪)). apply (left_id_L ∅ (∪)). }
  split; [|exact Hexported].
  rewrite Hexported. unfold Facade.core. now simplify_map_eq.
Qed.

(** * Further properties of the validators *)

(** ** The sequence runner on a rule list *)

Lemma run_sequence_first_failure ut (rules : list rule) :
  run_sequence ut rules =
  match first_failure rules with
  | None => Return true
  | Some m => Throw (Error (render ut m))
  end.
Proof.
  induction rules as [|r rules IH]; [reflexivity|].
  cbn [run_sequence first_failure]. unfold assertTruth.
  destruct (expression r); [|reflexivity].
  now rewrite bind_Return.
Qed.

Lemma validatorGenerator_first_failure ut (r : rule) (rules : list rule)
      (genericError : string) :
  validatorGenerator ut (r :: rules) genericError =
  match first_failure (r :: rules) with
  | None => Return true
  | Some m => Throw (Error (render ut m))
  end.
Proof. unfold validatorGenerator. apply run_sequence_first_failure. Qed.

Lemma validatorGenerator_not_false ut (rules : list rule) (g : string) :
  validatorGenerator ut rules g <> Return false.
Proof.
  destruct rules as [|r rules]; [discriminate|].
  rewrite validatorGenerator_first_failure.
  destruct (first_failure (r :: rules)); discriminate.
Qed.

Lemma validatorGenerator_not_TypeError ut (rules : list rule) (g : string) :
  validatorGenerator ut rules g <> Throw TypeError.
Proof.
  destruct rules as [|r rules]; [discriminate|].
  rewrite validatorGenerator_first_failure.
  destruct (first_failure (r :: rules)); discriminate.
Qed.

Lemma bind_not_false {A : Type} (c : result A) (f : A -> result bool) :
  (forall a, f a <> Return false) -> c ≫= f <> Return false.
Proof. intros Hf. destruct c as [a|e]; [apply Hf|discriminate]. Qed.

Lemma every_not_false {A : Type} (f : A -> bool) (l : list A) :
  forallb (fun truth => negb (Bool.eqb truth false)) (map f l) = forallb f l.
Proof.
  induction l as [|x l IH]; [reflexivity|].
  cbn [map forallb]. rewrite IH. now destruct (f x).
Qed.

Lemma forallb_Forall {A : Type} (f : A -> bool) (l : list A) :
  forallb f l = true <-> Forall (fun x => f x = true) l.
Proof.
  induction l as [|x l IH]; cbn [forallb].
  - split; [constructor|reflexivity].
  - rewrite andb_true_iff, IH. split.
    + intros [Hx Hl]. now constructor.
    + intros Hall. inversion Hall; subst. now split.
Qed.

Lemma split_nonempty_separator (s sep : string) :
  sep <> "" -> Str.split s sep = hd "" (Str.split s sep) :: tl (Str.split s sep).
Proof.
  intros Hsep. destruct sep as [|c sep']; [contradiction|].
  unfold Str.split. now destruct (Str.split_pieces (String c sep') 0 s).
Qed.

(** ** [derivationPathValidator] on a string of four segments *)

Section FourSegments.

Variable pf : Platform.
Variable df : Defaults.
Variable ms : Messages.
Variable ut : Utils.
Variables path s0 s1 s2 s3 : string.

Hypothesis Hsplitter : SPLITTER df <> "".
Hypothesis Hsplit : Str.split path (PATH_DELIMITER df) = [s0; s1; s2; s3].

Lemma derivationPathValidator_rules :
  derivationPathValidator pf df ms ut (VString path) =
  match
    first_failure [
      Rule (String.eqb (Str.toLowerCase (hd "" (Str.split s0 (SPLITTER df))))
              (PATH_HEADER_KEY df))
        (segment_message pf df (derivationPath_notValidHeaderKey ms)
           (VString s0));
      Rule (Num.strict_eq
              (Js.parseInt pf (Js.index (Str.split s0 (SPLITTER df)) 1))
              (PATH_PURPOSE df))
        (segment_message pf df (derivationPath_notValidPurpouse ms)
           (VString s0));
      Rule (Num.strict_eq (Str.parseInt s1) (PATH_COIN_MAINNET df)
            || Num.strict_eq (Str.parseInt s1) (PATH_COIN_TESTNET df))
        (segment_message pf df (derivationPath_notValidCoin ms) (VString s1));
      Rule (MATCH_DIGITS df s2)
        (segment_message pf df (derivationPath_notValidAccount ms)
           (VString s2));
      Rule (forallb (MATCH_DIGITS df) (Str.split s3 (SPLITTER df)))
        (segment_message pf df (derivationPath_notValidChangeIndex ms)
           (VString s3));
      Rule (Nat.leb (List.length (Str.split s3 (SPLITTER df))) 2)
        (segment_message pf df (derivationPath_notValidAccountIndex ms)
           (VString s3))
    ]
  with
  | None => Return true
  | Some m => Throw (Error (render ut m))
  end.
Proof using Hsplitter Hsplit.
  rewrite (derivationPathValidator_four_segments _ _ _ _ _ _ _ _ _ Hsplit).
  rewrite (split_nonempty_separator s0 _ Hsplitter) at 1.
  change (Js.toLowerCase (Js.index (?p :: ?ps) 0))
    with (Return (Str.toLowerCase p)).
  rewrite bind_Return, validatorGenerator_first_failure, every_not_false.
  reflexivity.
Qed.

End FourSegments.

Lemma render_segment_message pf df ut (label segment : string) :
  render ut (segment_message pf df label (VString segment)) =
  Str.join (fragment_glue ut)
    [label +:+ ":"; if String.eqb segment "" then UNDEFINED df else segment].
Proof.
  unfold render, segment_message, or_UNDEFINED, Js.or_else.
  cbn [Js.truthy]. now destruct (String.eqb segment "").
Qed.

Lemma derivationPathValidator_non_string pf df ms ut (input : value) :
  (forall s : string, input <> VString s) ->
  exists text, derivationPathValidator pf df ms ut input = Throw (Error text).
Proof.
  intros Hinput.
  destruct input as [| |b|n|s]; [| | | |now destruct (Hinput s)];
    eexists; reflexivity.
Qed.

(** X1: on a string that splits into four segments, the six rules are
    looked at in the order header key, purpose, coin type, account,
    change/index digits, number of indices; the first one that fails gives
    the error, whose message is the rule's label, a colon and the raw
    segment the rule is about (the [UNDEFINED] placeholder when that
    segment is empty); when none fails the result is true. *)
Theorem derivationPathValidator_first_failing_rule pf df ms ut
        (path s0 s1 s2 s3 : string) :
  SPLITTER df <> "" ->
  Str.split path (PATH_DELIMITER df) = [s0; s1; s2; s3] ->
  let fail label segment :=
    Throw (Error (Str.join (fragment_glue ut)
                    [label +:+ ":";
                     if String.eqb segment "" then UNDEFINED df
                     else segment])) in
  derivationPathValidator pf df ms ut (VString path) =
  if negb (String.eqb
             (Str.toLowerCase (hd "" (Str.split s0 (SPLITTER df))))
             (PATH_HEADER_KEY df))
  then fail (derivationPath_notValidHeaderKey ms) s0
  else if negb (Num.strict_eq
                  (Js.parseInt pf (Js.index (Str.split s0 (SPLITTER df)) 1))
                  (PATH_PURPOSE df))
  then fail (derivationPath_notValidPurpouse ms) s0
  else if negb (Num.strict_eq (Str.parseInt s1) (PATH_COIN_MAINNET df)
                || Num.strict_eq (Str.parseInt s1) (PATH_COIN_TESTNET df))
  then fail (derivationPath_notValidCoin ms) s1
  else if negb (MATCH_DIGITS df s2)
  then fail (derivationPath_notValidAccount ms) s2
  else if negb (forallb (MATCH_DIGITS df) (Str.split s3 (SPLITTER df)))
  then fail (derivationPath_notValidChangeIndex ms) s3
  else if negb (Nat.leb (List.length (Str.split s3 (SPLITTER df))) 2)
  then fail (derivationPath_notValidAccountIndex ms) s3
  else Return true.
Proof.
  intros Hsplitter Hsplit fail.
  rewrite (derivationPathValidator_rules _ _ _ _ _ _ _ _ _ Hsplitter Hsplit).
  cbn [first_failure expression rule_message]. subst fail. cbv beta.
  repeat match goal with
         | |- context [if ?b then _ else Some _] => destruct b; cbn [negb]
         end;
    try reflexivity; now rewrite render_segment_message.
Qed.

(** A path with header [x] and coin type 99 fails on the header: evidence
    for [derivationPathValidator_first_failing_rule]. *)
Lemma derivationPathValidator_first_failing_rule_witness :
  derivationPathValidator Sample.platform purser_defaults category_messages
    Sample.utils (VString "x/44'/99'/0'/0")
  = Throw (Error "bad-header: x/44").
Proof.
  exact (derivationPathValidator_first_failing_rule Sample.platform
           purser_defaults category_messages Sample.utils
           "x/44'/99'/0'/0" "x/44" "99" "0" "0"
           ltac:(discriminate) eq_refl).
Defined.

(** X2: with a non-empty [SPLITTER], among the inputs that are
    [undefined], [null], a boolean, a Number or a string,
    [derivationPathValidator] returns true exactly on the strings that
    split into four segments of which the first starts with the header key
    (in either case) and then holds a part whose leading integer is the
    purpose, the second has the mainnet or testnet coin type as its leading
    integer, the third matches the digits pattern, and the fourth is one or
    two parts that each match the digits pattern. *)
Theorem derivationPathValidator_accepts_exactly pf df ms ut (input : value) :
  SPLITTER df <> "" ->
  derivationPathValidator pf df ms ut input = Return true <->
  exists path s0 s1 s2 s3 : string,
    input = VString path
    /\ Str.split path (PATH_DELIMITER df) = [s0; s1; s2; s3]
    /\ Str.toLowerCase (hd "" (Str.split s0 (SPLITTER df)))
       = PATH_HEADER_KEY df
    /\ Num.strict_eq
         (Js.parseInt pf (Js.index (Str.split s0 (SPLITTER df)) 1))
         (PATH_PURPOSE df) = true
    /\ (Num.strict_eq (Str.parseInt s1) (PATH_COIN_MAINNET df) = true
        \/ Num.strict_eq (Str.parseInt s1) (PATH_COIN_TESTNET df) = true)
    /\ MATCH_DIGITS df s2 = true
    /\ Forall (fun part => MATCH_DIGITS df part = true)
         (Str.split s3 (SPLITTER df))
    /\ (1 <= List.length (Str.split s3 (SPLITTER df)) <= 2)%nat.
Proof.
  intros Hsplitter. split.
  - intros Haccepted.
    destruct input as [| |b|n|path]; [discriminate..|].
    destruct (Nat.eq_dec (List.length (Str.split path (PATH_DELIMITER df)))
                4%nat) as [Hfour|Hother];
      [|rewrite derivationPathValidator_wrong_part_count in Haccepted
          by exact Hother; discriminate].
    destruct (Str.split path (PATH_DELIMITER df))
      as [|s0 [|s1 [|s2 [|s3 [|s4 rest]]]]] eqn:Hsplit; try discriminate.
    rewrite (derivationPathValidator_rules _ _ _ _ _ _ _ _ _ Hsplitter Hsplit)
      in Haccepted.
    cbn [first_failure expression rule_message] in Haccepted.
    destruct (String.eqb_spec
                (Str.toLowerCase (hd "" (Str.split s0 (SPLITTER df))))
                (PATH_HEADER_KEY df)) as [Hheader|]; [|discriminate].
    destruct (Num.strict_eq _ (PATH_PURPOSE df)) eqn:Hpurpose; [|discriminate].
    destruct (_ || _) eqn:Hcoin; [|discriminate].
    destruct (MATCH_DIGITS df s2) eqn:Haccount; [|discriminate].
    destruct (forallb _ _) eqn:Hdigits; [|discriminate].
    destruct (Nat.leb_spec (List.length (Str.split s3 (SPLITTER df))) 2)
      as [Hcount|]; [|discriminate].
    exists path, s0, s1, s2, s3.
    repeat (split; [first [reflexivity|assumption]|]).
    split; [now apply orb_prop|].
    split; [assumption|].
    split; [now apply forallb_Forall|].
    split; [|exact Hcount].
    rewrite (split_nonempty_separator s3 _ Hsplitter). simpl. lia.
  - intros (path & s0 & s1 & s2 & s3 & -> & Hsplit & Hheader & Hpurpose
            & Hcoin & Haccount & Hdigits & _ & Hcount).
    rewrite (derivationPathValidator_rules _ _ _ _ _ _ _ _ _ Hsplitter Hsplit).
    cbn [first_failure expression rule_message].
    rewrite Hheader, String.eqb_refl, Hpurpose, Haccount.
    replace (_ || _) with true
      by (destruct Hcoin as [-> | ->]; [reflexivity|now rewrite orb_true_r]).
    replace (forallb _ _) with true by (symmetry; now apply forallb_Forall).
    destruct (Nat.leb_spec (List.length (Str.split s3 (SPLITTER df))) 2);
      [reflexivity|lia].
Qed.

(** [m/44'/60'/0'/0/7] is accepted, and its four segments are as the
    criterion says: evidence for [derivationPathValidator_accepts_exactly]. *)
Lemma derivationPathValidator_accepts_exactly_witness :
  exists path s0 s1 s2 s3 : string,
    VString "m/44'/60'/0'/0/7" = VString path
    /\ Str.split path (PATH_DELIMITER purser_defaults) = [s0; s1; s2; s3]
    /\ Str.toLowerCase (hd "" (Str.split s0 (SPLITTER purser_defaults)))
       = PATH_HEADER_KEY purser_defaults
    /\ Num.strict_eq
         (Js.parseInt Sample.platform
            (Js.index (Str.split s0 (SPLITTER purser_defaults)) 1))
         (PATH_PURPOSE purser_defaults) = true
    /\ (Num.strict_eq (Str.parseInt s1) (PATH_COIN_MAINNET purser_defaults)
        = true
        \/ Num.strict_eq (Str.parseInt s1)
             (PATH_COIN_TESTNET purser_defaults) = true)
    /\ MATCH_DIGITS purser_defaults s2 = true
    /\ Forall (fun part => MATCH_DIGITS purser_defaults part = true)
         (Str.split s3 (SPLITTER purser_defaults))
    /\ (1 <= List.length (Str.split s3 (SPLITTER purser_defaults)) <= 2)%nat.
Proof.
  apply (derivationPathValidator_accepts_exactly Sample.platform
           purser_defaults category_messages Sample.utils
           (VString "m/44'/60'/0'/0/7")).
  - discriminate.
  - reflexivity.
Defined.

(** X3: whatever it is given, [derivationPathValidator] lets no TypeError
    out: it returns true or throws an [Error] of its own. *)
Theorem derivationPathValidator_no_TypeError pf df ms ut (input : value) :
  SPLITTER df <> "" ->
  derivationPathValidator pf df ms ut input = Return true
  \/ exists text,
       derivationPathValidator pf df ms ut input = Throw (Error text).
Proof.
  intros Hsplitter.
  destruct input as [| |b|n|path];
    try (right; apply derivationPathValidator_non_string;
         intros s; discriminate).
  destruct (Nat.eq_dec (List.length (Str.split path (PATH_DELIMITER df)))
              4%nat) as [Hfour|Hother];
    [|right; eexists;
      now apply derivationPathValidator_wrong_part_count].
  destruct (Str.split path (PATH_DELIMITER df))
    as [|s0 [|s1 [|s2 [|s3 [|s4 rest]]]]] eqn:Hsplit; try discriminate.
  rewrite (derivationPathValidator_rules _ _ _ _ _ _ _ _ _ Hsplitter Hsplit).
  destruct (first_failure _); [right; eexists; reflexivity|left; reflexivity].
Qed.

Lemma derivationPathValidator_no_TypeError_witness :
  derivationPathValidator Sample.platform purser_defaults category_messages
    Sample.utils (VString "'/'/'/") = Return true
  \/ exists text,
       derivationPathValidator Sample.platform purser_defaults
         category_messages Sample.utils (VString "'/'/'/")
       = Throw (Error text).
Proof.
  apply (derivationPathValidator_no_TypeError Sample.platform
           purser_defaults category_messages Sample.utils
           (VString "'/'/'/")).
  discriminate.
Defined.

(** X4: no validator ever returns false: each one returns true or throws,
    whatever it is given. *)
Theorem validators_never_return_false pf df ms ut bt
        (input : value) (bigNumber : bigNumberInput) :
  derivationPathValidator pf df ms ut input <> Return false
  /\ safeIntegerValidator pf ms ut input <> Return false
  /\ bigNumberValidator ut bt bigNumber <> Return false
  /\ addressValidator pf df ms ut input <> Return false
  /\ hexSequenceValidator pf df ms ut input <> Return false
  /\ messageValidator pf df ms ut input <> Return false.
Proof.
  repeat split.
  - unfold derivationPathValidator.
    apply bind_not_false. intros [segments coinType].
    apply bind_not_false. intros _.
    apply bind_not_false. intros rules. apply validatorGenerator_not_false.
  - unfold safeIntegerValidator.
    apply bind_not_false. intros rules. apply validatorGenerator_not_false.
  - unfold bigNumberValidator.
    apply bind_not_false. intros rules. apply validatorGenerator_not_false.
  - unfold addressValidator.
    apply bind_not_false. intros rules. apply validatorGenerator_not_false.
  - unfold hexSequenceValidator.
    apply bind_not_false. intros rules. apply validatorGenerator_not_false.
  - unfold messageValidator.
    apply bind_not_false. intros rules. apply validatorGenerator_not_false.
Qed.

(** X5: the purpose and the coin type are read with [parseInt], and only
    the first two parts of segment 0 are looked at: a path is accepted as
    soon as the purpose part and the coin segment have the right leading
    integer, whatever follows the integer and whatever further parts
    segment 0 has. *)
Theorem derivationPathValidator_reads_leading_integers pf ms ut
        (header purpose extra coin account : string)
        (indices : list string) :
  header = "m" \/ header = "M" ->
  free_of "'" purpose = true ->
  free_of "/" purpose = true ->
  Num.strict_eq (Str.parseInt purpose) (Num.of_Z 44) = true ->
  free_of "'" extra = true ->
  (extra = "" \/ exists parts, extra = "/" +:+ parts) ->
  free_of "'" coin = true ->
  (Num.strict_eq (Str.parseInt coin) (Num.of_Z 60) = true
   \/ Num.strict_eq (Str.parseInt coin) (Num.of_Z 1) = true) ->
  Match.DIGITS account = true ->
  Forall (fun i => Match.DIGITS i = true) indices ->
  (1 <= List.length indices <= 2)%nat ->
  let segment0 := header +:+ "/" +:+ purpose +:+ extra in
  derivationPathValidator pf purser_defaults ms ut
    (VString (segment0 +:+ "'/" +:+ coin +:+ "'/" +:+ account +:+ "'/"
              +:+ Str.join "/" indices))
  = Return true.
Proof.
  intros Hheader Hp1 Hp2 Hpurpose Hextra Hshape Hc Hcoin Haccount Hindices
         Hlen segment0.
  assert (Hne : indices <> []) by (intros ->; simpl in Hlen; lia).
  assert (Hfree0 : free_of "'" segment0 = true).
  { unfold segment0. rewrite !free_of_app, Hp1, Hextra.
    destruct Hheader as [-> | ->]; reflexivity. }
  assert (Hsplit :
    Str.split (segment0 +:+ "'/" +:+ coin +:+ "'/" +:+ account +:+ "'/"
               +:+ Str.join "/" indices) (PATH_DELIMITER purser_defaults)
    = [segment0; coin; account; Str.join "/" indices]).
  { change (PATH_DELIMITER purser_defaults) with (String "'" "/").
    rewrite (split_cons _ _ _ _ Hfree0), (split_cons _ _ _ _ Hc).
    rewrite split_cons by (now apply DIGITS_spec).
    rewrite split_free by (now apply free_of_join_digits).
    reflexivity. }
  assert (Hparts : exists rest,
    Str.split segment0 (SPLITTER purser_defaults)
    = header :: purpose :: rest).
  { change (SPLITTER purser_defaults) with (String "/" "").
    unfold segment0.
    rewrite split_cons by (destruct Hheader as [-> | ->]; reflexivity).
    destruct Hshape as [-> | [parts ->]].
    - rewrite append_nil_r, (split_free _ _ _ Hp2). now exists [].
    - change (purpose +:+ "/" +:+ parts)
        with (purpose +:+ String "/" "" +:+ parts).
      rewrite (split_cons _ _ _ _ Hp2). now eexists. }
  destruct Hparts as [rest Hparts].
  assert (Hsplitter : SPLITTER purser_defaults <> "") by discriminate.
  rewrite (derivationPathValidator_rules _ _ _ _ _ _ _ _ _ Hsplitter Hsplit).
  rewrite Hparts.
  change (SPLITTER purser_defaults) with "/".
  change (MATCH_DIGITS purser_defaults) with Match.DIGITS.
  rewrite (split_indices _ Hne Hindices).
  cbn [first_failure expression rule_message hd Js.index lookup list_lookup].
  change (Js.parseInt pf (VString purpose)) with (Str.parseInt purpose).
  change (PATH_PURPOSE purser_defaults) with (Num.of_Z 44).
  change (PATH_COIN_MAINNET purser_defaults) with (Num.of_Z 60).
  change (PATH_COIN_TESTNET purser_defaults) with (Num.of_Z 1).
  rewrite Hpurpose, Haccount.
  replace (String.eqb (Str.toLowerCase header)
             (PATH_HEADER_KEY purser_defaults)) with true
    by (destruct Hheader as [-> | ->]; reflexivity).
  replace (_ || _) with true
    by (destruct Hcoin as [-> | ->]; [reflexivity|now rewrite orb_true_r]).
  replace (forallb Match.DIGITS indices) with true
    by (symmetry; now apply forallb_Forall).
  destruct (Nat.leb_spec (List.length indices) 2); [reflexivity|lia].
Qed.

(** A purpose followed by a letter, a third part in segment 0, and a coin
    type with a sign in front and letters behind: the path is accepted.
    Evidence for [derivationPathValidator_reads_leading_integers]. *)
Lemma derivationPathValidator_reads_leading_integers_witness :
  derivationPathValidator Sample.platform purser_defaults category_messages
    Sample.utils (VString "M/44x/anything'/ +60abc'/0'/0")
  = Return true.
Proof.
  apply (derivationPathValidator_reads_leading_integers Sample.platform
           category_messages Sample.utils
           "M" "44x" "/anything" " +60abc" "0" ["0"]);
    [right; reflexivity|reflexivity|reflexivity|reflexivity|reflexivity
    |right; exists "anything"; reflexivity|reflexivity|left; reflexivity
    |reflexivity|repeat constructor|simpl; lia].
Defined.

(** ** What the string validators accept *)










(** ** The facade, property by property *)

(** X10: a property of the exported object is, in a development build, the
    property of the debug helper when the helper has one under that key
    (the helper wins over [wallets], [utils] and [about] if it defines
    them) and the one of the object literal otherwise; in any other build
    it is the one of the object literal, and the helper has no influence.
    In a development build the keys are those of the helper together with
    [wallets], [utils] and [about]. *)
Theorem colonyWallet_lookup
        (ENV : string) (debug : gmap string Facade.export)
        (name version key : string) :
  let exported := Facade.colonyWallet ENV debug name version in
  let core := Facade.core ENV name version in
  exported !! key
  = (if String.eqb ENV "development"
     then match debug !! key with
          | Some property => Some property
          | None => core !! key
          end
     else core !! key)
  /\ dom exported
     = (if String.eqb ENV "development"
        then dom debug ∪ {[ "wallets"; "utils"; "about" ]}
        else {[ "wallets"; "utils"; "about" ]} : gset string).
Proof.
  intros exported core.
  assert (Hexported : exported
                      = if String.eqb ENV "development" then debug ∪ core
                        else core).
  { unfold exported, Facade.colonyWallet, Facade.Object_assign.
    cbn [foldl]. rewrite (right_id_L ∅ (∪) core).
    destruct (String.eqb ENV "development"); [reflexivity|].
    apply (left_id_L ∅ (∪)). }
  assert (Hdom : dom core = ({[ "wallets"; "utils"; "about" ]} : gset string)).
  { unfold core, Facade.core. rewrite !dom_insert_L, dom_singleton_L.
    set_solver. }
  rewrite Hexported. destruct (String.eqb ENV "development").
  - split.
    + rewrite lookup_union. destruct (debug !! key), (core !! key); reflexivity.
    + now rewrite dom_union_L, Hdom.
  - split; [reflexivity|exact Hdom].
Qed.



(** Splitting at the slash accepts nothing: [m/44'/60'/0'/0] then has five
    segments.  Evidence for [slash_delimiter_accepts_nothing]. *)
Lemma slash_delimiter_accepts_nothing_witness :
  derivationPathValidator Sample.platform (with_delimiter "/")
    category_messages Sample.utils (VString "m/44'/60'/0'/0")
  <> Return true.
Proof.
  apply (slash_delimiter_accepts_nothing Sample.platform
           (with_delimiter "/") category_messages Sample.utils
           "m/44'/60'/0'/0"); reflexivity.
Defined.

(** The delimiter of [purser_defaults] is the one the lemma forces:
    evidence for [delimiter_forced]. *)
Lemma delimiter_forced_witness :
  PATH_DELIMITER purser_defaults = "'/".
Proof.
  apply (delimiter_forced Sample.platform category_messages Sample.utils
           (PATH_DELIMITER purser_defaults)).
  reflexivity.
Defined.

(** ** Edge inputs *)

(** X12: [safeIntegerValidator] on the Numbers at the edges: every negative
    Number, finite or infinite, integral or not, fails as not positive;
    positive infinity and every positive Number that is not an integer fail
    as not safe; both zeros are accepted. *)
Theorem safeIntegerValidator_edges pf ms ut :
  (forall (m : positive) (e : Z),
      safeIntegerValidator pf ms ut (VNumber (S754_finite true m e))
      = Throw (Error (labelled pf (safeInteger_notPositive ms)
                        (VNumber (S754_finite true m e)))))
  /\ safeIntegerValidator pf ms ut (VNumber (S754_infinity true))
     = Throw (Error (labelled pf (safeInteger_notPositive ms)
                       (VNumber (S754_infinity true))))
  /\ safeIntegerValidator pf ms ut (VNumber (S754_infinity false))
     = Throw (Error (labelled pf (safeInteger_notSafe ms)
                       (VNumber (S754_infinity false))))
  /\ (forall (m : positive) (e : Z),
         Num.integer_value (S754_finite false m e) = None ->
         safeIntegerValidator pf ms ut (VNumber (S754_finite false m e))
         = Throw (Error (labelled pf (safeInteger_notSafe ms)
                           (VNumber (S754_finite false m e)))))
  /\ (forall s : bool,
         safeIntegerValidator pf ms ut (VNumber (S754_zero s)) = Return true).
Proof.
  split; [reflexivity|]. split; [reflexivity|]. split; [reflexivity|].
  split.
  - intros m e Hvalue. rewrite safeIntegerValidator_unfold.
    unfold Num.isSafeInteger. now rewrite Hvalue.
  - intros s. rewrite safeIntegerValidator_unfold. now destruct s.
Qed.

(** One half, [1 * 2^-1], is positive and not an integer: evidence for
    [safeIntegerValidator_edges]. *)
Lemma safeIntegerValidator_edges_witness :
  safeIntegerValidator Sample.platform category_messages Sample.utils
    (VNumber (S754_finite false 1 (-1)))
  = Throw (Error (labelled Sample.platform "not-safe"
                    (VNumber (S754_finite false 1 (-1))))).
Proof.
  pose proof (safeIntegerValidator_edges Sample.platform category_messages
                Sample.utils) as (_ & _ & _ & Hfraction & _).
  apply (Hfraction 1%positive (-1)). reflexivity.
Defined.

(** X13: the empty string.  [addressValidator] fails on its length, and
    [hexSequenceValidator], when its pattern does not match the empty
    string, on the pattern; since the empty string is falsy, the message
    carries the [UNDEFINED] placeholder in place of the input.
    [messageValidator] accepts it, and so does [hexSequenceValidator] when
    its pattern matches it. *)
Theorem string_validators_on_the_empty_string pf df ms ut :
  addressValidator pf df ms ut (VString "")
  = Throw (Error (address_notLength ms +:+ ": " +:+ UNDEFINED df))
  /\ hexSequenceValidator pf df ms ut (VString "")
     = (if MATCH_HEX_STRING df "" then Return true
        else Throw (Error (hexSequence_notFormat ms +:+ ": "
                           +:+ UNDEFINED df)))
  /\ messageValidator pf df ms ut (VString "") = Return true.
Proof.
  split; [reflexivity|]. split; [|reflexivity].
  rewrite hexSequenceValidator_string.
  now destruct (MATCH_HEX_STRING df "").
Qed.

(** X14: a string in which the top-level delimiter does not occur, the
    empty string included, is one segment: [derivationPathValidator] fails
    on the segment count, and the message lists the whole string between
    the brackets. *)
Theorem derivationPathValidator_without_delimiter pf df ms ut
        (path : string) :
  PATH_DELIMITER df <> "" ->
  occurs (PATH_DELIMITER df) path = false ->
  derivationPathValidator pf df ms ut (VString path)
  = Throw (Error (Str.join (fragment_glue ut)
                    [derivationPath_notValidParts ms +:+ ": ["; path; "]"])).
Proof.
  intros Hdelimiter Habsent.
  assert (Hsplit : Str.split path (PATH_DELIMITER df) = [path]).
  { destruct (PATH_DELIMITER df) as [|c sep']; [contradiction|].
    unfold Str.split. now rewrite (split_pieces_absent _ _ _ Habsent). }
  rewrite derivationPathValidator_wrong_part_count by (now rewrite Hsplit).
  now rewrite Hsplit.
Qed.

Lemma derivationPathValidator_without_delimiter_witness :
  derivationPathValidator Sample.platform purser_defaults category_messages
    Sample.utils (VString "")
  = Throw (Error "wrong-part-count: [  ]").
Proof.
  apply (derivationPathValidator_without_delimiter Sample.platform
           purser_defaults category_messages Sample.utils "");
    [discriminate|reflexivity].
Defined.
